(** * LogArc client (src/index.js): a shallow embedding and its properties

    The JavaScript class [LogArcService] is embedded as Rocq functions over
    a small model of JavaScript values.  Synchronous code lives in the
    monad [JS] (state passing over the observable world, plus thrown
    errors); an [async] function returns a promise, modelled by the way it
    settles.  The three things the program reaches outside itself for (the
    stack text of [new Error()], the clock of moment-timezone and the HTTP
    server behind axios) are fields of a [Runtime] record. *)

From Stdlib Require Import ZArith List String Ascii Bool Lia.
From Stdlib Require Import Numbers.DecimalString.
From Stdlib Require Numbers.DecimalPos.
Import ListNotations.

Local Open Scope Z_scope.
Local Open Scope list_scope.
Local Open Scope string_scope.

(* ===================================================================== *)
(** ** JavaScript values *)
(* ===================================================================== *)

(** Values are the JSON-like ones the program handles: primitives and plain
    data objects (an object is its list of own properties, first binding
    first).  Numbers are restricted to the integers and NaN; strings are
    sequences of code units below 256. *)
#[warnings="-register-all"]
Inductive JSValue : Type :=
| VUndefined
| VNull
| VBool (b : bool)
| VNum (n : Z)
| VNaN
| VStr (s : string)
| VObj (props : list (string * JSValue)).

(** ToBoolean: the falsy values are undefined, null, false, 0, NaN and the
    empty string. *)
Definition truthy (v : JSValue) : bool :=
  match v with
  | VUndefined | VNull | VNaN => false
  | VBool b => b
  | VNum n => negb (n =? 0)%Z
  | VStr s => negb (String.eqb s "")
  | VObj _ => true
  end.

(** [a || b] *)
Definition js_or (a b : JSValue) : JSValue :=
  if truthy a then a else b.

(** A parameter default [p = d]: the default is taken exactly when the
    argument is undefined (omitted). *)
Definition default_param (arg d : JSValue) : JSValue :=
  match arg with
  | VUndefined => d
  | _ => arg
  end.

Definition Z_to_string (n : Z) : string :=
  NilZero.string_of_int (Z.to_int n).

(** ToString, as used by template literals.  Plain objects print as
    [[object Object]]; integers print in decimal (what JavaScript does
    below 10^21). *)
Definition ToString (v : JSValue) : string :=
  match v with
  | VUndefined => "undefined"
  | VNull => "null"
  | VBool true => "true"
  | VBool false => "false"
  | VNum n => Z_to_string n
  | VNaN => "NaN"
  | VStr s => s
  | VObj _ => "[object Object]"
  end.

Fixpoint assoc (k : string) (props : list (string * JSValue)) : option JSValue :=
  match props with
  | [] => None
  | (k', v) :: rest => if String.eqb k k' then Some v else assoc k rest
  end.

(** Own-property read on an object literal: a missing property reads as
    undefined. *)
Definition obj_get (props : list (string * JSValue)) (k : string) : JSValue :=
  match assoc k props with
  | Some v => v
  | None => VUndefined
  end.

(** SameValueZero, the comparison of [Array.prototype.includes].  Objects
    compare by identity, which this model does not track: two object values
    are taken to be distinct objects. *)
Definition same_value_zero (a b : JSValue) : bool :=
  match a, b with
  | VUndefined, VUndefined => true
  | VNull, VNull => true
  | VBool x, VBool y => Bool.eqb x y
  | VNum x, VNum y => (x =? y)%Z
  | VNaN, VNaN => true
  | VStr x, VStr y => String.eqb x y
  | _, _ => false
  end.

Definition includes (l : list JSValue) (v : JSValue) : bool :=
  existsb (fun x => same_value_zero x v) l.

(** [Object.values] of an object literal. *)
Definition Object_values (props : list (string * JSValue)) : list JSValue :=
  map snd props.

(* ===================================================================== *)
(** ** Errors, the observable world and the monad *)
(* ===================================================================== *)

(** An HTTP response as axios presents it: [response.status] and the
    decoded body [response.data]. *)
Record Response : Type := mkResponse {
  resp_status : Z;
  resp_data : JSValue
}.

(** The error axios rejects with.  [err.response] is set exactly when the
    server answered; the program reads [message] and [stack] only when it
    is not. *)
Inductive AxiosErr : Type :=
| HttpError (response : Response)
| NetworkError (message stack : string).

Inductive JsError : Type :=
| ProjectKeyNotFoundException
| InvalidProjectKeyException
| Error_ (message : string)
| TypeError (message : string)
| AxiosError (err : AxiosErr).

(** The [name] and [message] set by the two exception classes of the
    source (lines 7-22). *)
Definition error_name (e : JsError) : string :=
  match e with
  | ProjectKeyNotFoundException => "ProjectKeyNotFoundException"
  | InvalidProjectKeyException => "InvalidProjectKeyException"
  | Error_ _ => "Error"
  | TypeError _ => "TypeError"
  | AxiosError _ => "AxiosError"
  end.

Definition error_message (e : JsError) : option string :=
  match e with
  | ProjectKeyNotFoundException => Some "Project key not found in configuration."
  | InvalidProjectKeyException => Some "Invalid project key provided."
  | Error_ m => Some m
  | TypeError m => Some m
  | AxiosError (NetworkError m _) => Some m
  | AxiosError (HttpError _) => None
  end.

(** One outbound HTTP request. *)
Record Request : Type := mkRequest {
  url : string;
  body : JSValue;
  headers : list (string * string)
}.

(** What the program leaves behind: the requests it issued (oldest first),
    the arguments of each [console.error] call, and the rejections of
    promises that were dropped with no handler attached. *)
Record World : Type := mkWorld {
  requests : list Request;
  console : list (list JSValue);
  unhandled : list JsError
}.

Definition empty_world : World := mkWorld [] [] [].

Inductive Completion (A : Type) : Type :=
| Normal (a : A)
| Throw (e : JsError).
Arguments Normal {A} a.
Arguments Throw {A} e.

Definition JS (A : Type) : Type := World -> Completion A * World.

Definition ret {A} (a : A) : JS A := fun w => (Normal a, w).

Definition throw {A} (e : JsError) : JS A := fun w => (Throw e, w).

Definition bind {A B} (m : JS A) (k : A -> JS B) : JS B :=
  fun w =>
    match m w with
    | (Normal a, w') => k a w'
    | (Throw e, w') => (Throw e, w')
    end.

Definition lift {A} (c : Completion A) : JS A := fun w => (c, w).

Notation "x <- m ;; k" := (bind m (fun x => k))
  (at level 100, m at next level, right associativity).
Notation "m ;;; k" := (bind m (fun _ => k))
  (at level 100, right associativity).

(** A promise, modelled by its settlement. *)
Inductive Promise : Type :=
| Fulfilled (v : JSValue)
| Rejected (e : JsError).

(** An [async] function: running the body never throws to the caller; a
    normal completion fulfils the returned promise, a throw rejects it. *)
Definition async (m : JS JSValue) : JS Promise :=
  fun w =>
    match m w with
    | (Normal v, w') => (Normal (Fulfilled v), w')
    | (Throw e, w') => (Normal (Rejected e), w')
    end.

(** [await p] *)
Definition await (p : Promise) : JS JSValue :=
  match p with
  | Fulfilled v => ret v
  | Rejected e => throw e
  end.

(** An expression statement whose value is a promise: the promise is
    dropped; if it rejects, nothing handles the rejection. *)
Definition drop_promise (p : Promise) : JS unit :=
  fun w =>
    match p with
    | Fulfilled _ => (Normal tt, w)
    | Rejected e =>
        (Normal tt, mkWorld (requests w) (console w) (unhandled w ++ [e]))
    end.

Definition console_error (args : list JSValue) : JS unit :=
  fun w => (Normal tt, mkWorld (requests w) (console w ++ [args]) (unhandled w)).

(** What a method hands back to its caller: a plain value or a promise. *)
Inductive Returned : Type :=
| RetValue (v : JSValue)
| RetPromise (p : Promise).

(** What the caller observes when awaiting a returned value: a promise
    settles as it does, anything else is passed through as fulfilled. *)
Definition awaited (r : Returned) : Promise :=
  match r with
  | RetValue v => Fulfilled v
  | RetPromise p => p
  end.

(* ===================================================================== *)
(** ** String primitives: split, match, parseInt *)
(* ===================================================================== *)

Definition newline : ascii := ascii_of_nat 10.

(** [s.split(sep)] for a one-character separator. *)
Fixpoint split (sep : ascii) (s : string) : list string :=
  match s with
  | EmptyString => [""]
  | String c s' =>
      if Ascii.eqb c sep then "" :: split sep s'
      else match split sep s' with
           | h :: t => String c h :: t
           | [] => [String c ""]
           end
  end.

(** The regular expressions the program needs: a sequence of literal
    characters and of [c+] / [c+?] loops over a character class, a loop
    possibly being a capture group. *)
Inductive Atom : Type :=
| Lit (c : ascii)
| Plus (greedy : bool) (cls : ascii -> bool) (group : option nat).

Record Regex : Type := mkRegex {
  atoms : list Atom;
  ngroups : nat
}.

(** [.] matches anything but a line terminator. *)
Definition dot (c : ascii) : bool :=
  negb (Ascii.eqb c newline || Ascii.eqb c (ascii_of_nat 13)).

(** [\d] *)
Definition digit (c : ascii) : bool :=
  (48 <=? nat_of_ascii c)%nat && (nat_of_ascii c <=? 57)%nat.

Definition Captures : Type := list (nat * string).

Definition record_group (g : option nat) (txt : string) (caps : Captures) : Captures :=
  match g with
  | Some i => (i, txt) :: caps
  | None => caps
  end.

Section Backtracking.
Context {R : Type}.
Variable cls : ascii -> bool.
(** The rest of the pattern, given the text the loop consumed and the
    input that is left. *)
Variable k : string -> string -> option R.

(** [c+?]: stop as early as the rest of the pattern allows. *)
Fixpoint lazy_plus (acc s : string) : option R :=
  match s with
  | EmptyString => None
  | String c s' =>
      if cls c then
        let acc' := acc ++ String c "" in
        match k acc' s' with
        | Some r => Some r
        | None => lazy_plus acc' s'
        end
      else None
  end.

(** [c+]: take as much as possible, giving back one character at a time. *)
Fixpoint greedy_plus (acc s : string) : option R :=
  match s with
  | EmptyString => None
  | String c s' =>
      if cls c then
        let acc' := acc ++ String c "" in
        match greedy_plus acc' s' with
        | Some r => Some r
        | None => k acc' s'
        end
      else None
  end.
End Backtracking.

(** Match the atoms at the start of [s]; the result is the captures and the
    input left after the match. *)
Fixpoint match_here (items : list Atom) (caps : Captures) (s : string)
  : option (Captures * string) :=
  match items with
  | [] => Some (caps, s)
  | Lit c :: rest =>
      match s with
      | String c' s' => if Ascii.eqb c c' then match_here rest caps s' else None
      | EmptyString => None
      end
  | Plus greedy cls g :: rest =>
      (if greedy then greedy_plus else lazy_plus) cls
        (fun txt s' => match_here rest (record_group g txt caps) s') "" s
  end.

Fixpoint find_group (i : nat) (caps : Captures) : JSValue :=
  match caps with
  | [] => VUndefined
  | (j, txt) :: rest => if Nat.eqb i j then VStr txt else find_group i rest
  end.

(** The array of a successful match: the matched text, then the groups. *)
Definition match_array (re : Regex) (s : string) (r : Captures * string) : list JSValue :=
  let (caps, rest) := r in
  VStr (substring 0 (String.length s - String.length rest) s)
    :: map (fun i => find_group i caps) (seq 1 (ngroups re)).

(** [s.match(re)] for a regular expression without flags: the leftmost
    match, or null ([None]). *)
Fixpoint str_match (re : Regex) (s : string) : option (list JSValue) :=
  match match_here (atoms re) [] s with
  | Some r => Some (match_array re s r)
  | None =>
      match s with
      | EmptyString => None
      | String _ s' => str_match re s'
      end
  end.

(** [m[i]], where [m] is the result of [match]: reading an index of null
    throws. *)
Definition match_index (m : option (list JSValue)) (i : nat) : Completion JSValue :=
  match m with
  | None =>
      Throw (TypeError ("Cannot read properties of null (reading '"
                          ++ Z_to_string (Z.of_nat i) ++ "')"))
  | Some arr => Normal (nth i arr VUndefined)
  end.

Definition is_space (c : ascii) : bool :=
  existsb (Nat.eqb (nat_of_ascii c)) [9; 10; 11; 12; 13; 32; 160]%nat.

Fixpoint skip_spaces (s : string) : string :=
  match s with
  | String c s' => if is_space c then skip_spaces s' else s
  | EmptyString => s
  end.

Fixpoint leading_digits (s : string) (acc : option Z) : option Z :=
  match s with
  | String c s' =>
      if digit c then
        leading_digits s'
          (Some (10 * match acc with Some a => a | None => 0 end
                 + (Z.of_nat (nat_of_ascii c) - 48))%Z)
      else acc
  | EmptyString => acc
  end.

(** [parseInt(v, 10)]: leading white space, an optional sign, then the
    longest run of decimal digits; NaN when there is none. *)
Definition parseInt (v : JSValue) : JSValue :=
  let s := skip_spaces (ToString v) in
  let (sign, s) :=
    match s with
    | String "-" s' => ((-1)%Z, s')
    | String "+" s' => (1%Z, s')
    | _ => (1%Z, s)
    end in
  match leading_digits s None with
  | Some n => VNum (sign * n)
  | None => VNaN
  end.

(* ===================================================================== *)
(** ** The runtime: stack text, moment-timezone, axios *)
(* ===================================================================== *)

(** moment, moment-timezone and axios are dependencies of the program, not
    part of it.  What follows describes them as their documentation does,
    as far as the program uses them; the zone database and the server are
    left open as fields of [Runtime]. *)

(** A broken-down wall-clock time, as moment's getters report it ([month]
    counted from 1, as the token MM prints it). *)
Record CivilTime : Type := mkCivil {
  year : Z;
  month : Z;
  day : Z;
  hour : Z;
  minute : Z;
  second : Z
}.

(** moment's [zeroFill(number, targetLength)]. *)
Definition zeroFill (n : Z) (targetLength : nat) : string :=
  let digits := Z_to_string (Z.abs n) in
  let zeros := concat "" (repeat "0" (targetLength - String.length digits)) in
  (if (n <? 0)%Z then "-" else "") ++ zeros ++ digits.

(** A format string cut into runs of one repeated character. *)
Fixpoint runs (p : string) : list (ascii * nat) :=
  match p with
  | EmptyString => []
  | String c rest =>
      match runs rest with
      | (c', n) :: t => if Ascii.eqb c c' then (c, S n) :: t else (c, 1%nat) :: (c', n) :: t
      | [] => [(c, 1%nat)]
      end
  end.

(** The characters that start (or expand to) a moment format token; every
    other character of a format string is copied to the output. *)
Definition token_letter (c : ascii) : bool :=
  existsb (Ascii.eqb c)
    (list_ascii_of_string "HhMDdwWQNYygGeEaAkmsSxXzZLl").

(** The tokens of the pattern used by the program. *)
Definition field (t : CivilTime) (c : ascii) (n : nat) : option string :=
  match c, n with
  | "Y"%char, 4%nat => Some (zeroFill (year t) 4)
  | "M"%char, 2%nat => Some (zeroFill (month t) 2)
  | "D"%char, 2%nat => Some (zeroFill (day t) 2)
  | "H"%char, 2%nat => Some (zeroFill (hour t) 2)
  | "m"%char, 2%nat => Some (zeroFill (minute t) 2)
  | "s"%char, 2%nat => Some (zeroFill (second t) 2)
  | _, _ => None
  end.

Definition copies (c : ascii) (n : nat) : string :=
  string_of_list_ascii (repeat c n).

(** [moment.format(pattern)] on the part of the pattern language the
    program uses: text in square brackets is copied without the brackets,
    the six tokens above print their zero-filled field, characters that
    start no token are copied.  [None] stands for a pattern outside this
    part (another token, a backslash escape, a line break, brackets that
    do not pair up). *)
Fixpoint format_runs (t : CivilTime) (escaped : bool) (rs : list (ascii * nat))
  : option string :=
  match rs with
  | [] => if escaped then None else Some ""
  | (c, n) :: rest =>
      if escaped then
        if Ascii.eqb c "]" then
          match n with
          | 1%nat => format_runs t false rest
          | _ => None
          end
        else if Ascii.eqb c "[" then None
        else option_map (append (copies c n)) (format_runs t true rest)
      else
        if Ascii.eqb c "[" then
          match n with
          | 1%nat => format_runs t true rest
          | _ => None
          end
        else if Ascii.eqb c "]" || Ascii.eqb c "\" || negb (dot c) then None
        else if token_letter c then
          match field t c n with
          | Some txt => option_map (append txt) (format_runs t false rest)
          | None => None
          end
        else option_map (append (copies c n)) (format_runs t false rest)
  end.

Definition moment_format (t : CivilTime) (pattern : string) : option string :=
  format_runs t false (runs pattern).

(** What the server does with a request: it answers with a status and a
    body, or no response arrives (time-out, DNS failure, refused
    connection) and the transport reports a message and a stack. *)
Inductive ServerReply : Type :=
| Responded (status : Z) (body : JSValue)
| NoResponse (message stack : string).

(** The surroundings of one logging call.
    - [error_stack]: the text of [new Error().stack] inside [log];
    - [now]: the instant [moment()] captures, in milliseconds since the epoch;
    - [tz]: moment-timezone's [.tz(name)], giving the wall-clock time of
      the instant in the named zone; it throws on names it does not accept;
    - [server]: the peer behind [axios.post]. *)
Record Runtime : Type := mkRuntime {
  error_stack : string;
  now : Z;
  tz : Z -> JSValue -> Completion CivilTime;
  server : Request -> ServerReply
}.

Inductive AxiosPromise : Type :=
| AxFulfilled (response : Response)
| AxRejected (err : AxiosErr).

(** [axios.post(url, data, {headers})] with axios's default
    [validateStatus]: the request is issued; a status in 200..299 fulfils
    the promise with the response, any other status rejects it with an
    error carrying the response, and no response rejects it with an error
    that has none. *)
Definition axios_post (rt : Runtime) (u : string) (payload : JSValue)
    (hs : list (string * string)) : JS AxiosPromise :=
  fun w =>
    let req := mkRequest u payload hs in
    let w' := mkWorld (requests w ++ [req]) (console w) (unhandled w) in
    match server rt req with
    | Responded st b =>
        if (200 <=? st)%Z && (st <? 300)%Z
        then (Normal (AxFulfilled (mkResponse st b)), w')
        else (Normal (AxRejected (HttpError (mkResponse st b))), w')
    | NoResponse m s => (Normal (AxRejected (NetworkError m s)), w')
    end.

(** Property read [o.k] for the property names of a configuration object:
    reading from null or undefined throws; a primitive has none of them. *)
Definition get_prop (o : JSValue) (k : string) : Completion JSValue :=
  match o with
  | VUndefined =>
      Throw (TypeError ("Cannot read properties of undefined (reading '" ++ k ++ "')"))
  | VNull =>
      Throw (TypeError ("Cannot read properties of null (reading '" ++ k ++ "')"))
  | VObj props => Normal (obj_get props k)
  | _ => Normal VUndefined
  end.

(* ===================================================================== *)
(** ** src/index.js *)
(* ===================================================================== *)

(** [AppEnv] (lines 27-32). *)
Definition AppEnv : list (string * JSValue) :=
  [ ("Local", VStr "local");
    ("DEVELOPMENT", VStr "development");
    ("STAGING", VStr "staging");
    ("PRODUCTION", VStr "production") ].

(** The fields the constructor sets on [this]. *)
Record LogArcService : Type := mkService {
  projectKey : JSValue;
  endpoint : JSValue;
  env : JSValue;
  timezone : JSValue;
  user : JSValue
}.

(** [getProjectKey(config)] (lines 63-68). *)
Definition getProjectKey (config : JSValue) : JS JSValue :=
  k <- lift (get_prop config "project_key") ;;
  if negb (truthy k) then throw ProjectKeyNotFoundException
  else lift (get_prop config "project_key").

(** [constructor(config = {}, user = null)] (lines 47-58). *)
Definition constructor (config user : JSValue) : JS LogArcService :=
  let config := default_param config (VObj []) in
  let user := default_param user VNull in
  projectKey <- getProjectKey config ;;
  e <- lift (get_prop config "endpoint") ;;
  let endpoint := js_or e (VStr "https://logarc.com/api") in
  e <- lift (get_prop config "env") ;;
  let env := js_or e (obj_get AppEnv "PRODUCTION") in
  z <- lift (get_prop config "timezone") ;;
  let timezone := js_or z (VStr "UTC") in
  if negb (includes (Object_values AppEnv) env)
  then throw (Error_ ("Invalid environment: " ++ ToString env))
  else ret (mkService projectKey endpoint env timezone user).

(** The pattern [/at (.+?) \((.+?):(\d+):\d+\)/] of line 133. *)
Definition caller_pattern : Regex :=
  mkRegex
    [ Lit "a"; Lit "t"; Lit " ";
      Plus false dot (Some 1%nat);
      Lit " "; Lit "(";
      Plus false dot (Some 2%nat);
      Lit ":";
      Plus true digit (Some 3%nat);
      Lit ":";
      Plus true digit None;
      Lit ")" ]
    3.

(** Lines 131-136 of [log]: class name and line number of the caller, read
    off the stack text. *)
Definition caller_metadata (stack_text : string) : JS (JSValue * JSValue) :=
  let stack := split newline stack_text in
  let callerLine := match nth_error stack 3 with
                    | Some l => if negb (String.eqb l "") then l else ""
                    | None => ""
                    end in
  let match_ := str_match caller_pattern callerLine in
  className <- match match_ with
               | Some _ => lift (match_index match_ 1)
               | None => ret (VStr "UnknownClass")
               end ;;
  lineNumber <- match match_ with
                | Some _ => g <- lift (match_index match_ 3) ;; ret (parseInt g)
                | None => ret (VNum 0)
                end ;;
  ret (className, lineNumber).

(** [moment().tz(zone).format(pattern)].  The last branch stands for a
    pattern that [moment_format] does not cover; the pattern of line 141 is
    covered (lemma [format_pattern]), so [log] never takes it. *)
Definition moment_tz_format (rt : Runtime) (zone : JSValue) (pattern : string)
  : Completion JSValue :=
  match tz rt (now rt) zone with
  | Throw e => Throw e
  | Normal t =>
      match moment_format t pattern with
      | Some s => Normal (VStr s)
      | None => Throw (Error_ "unsupported format pattern")
      end
  end.

(** [sendLogRequest(data)] (lines 160-190). *)
Definition sendLogRequest (rt : Runtime) (this : LogArcService) (payload : JSValue)
  : JS Promise :=
  async (
    p <- axios_post rt (ToString (endpoint this) ++ "/log") payload
           [("Accept", "application/json")] ;;
    match p with
    | AxFulfilled response => ret (resp_data response)
    | AxRejected err =>
        (match err with
         | HttpError response =>
             if (resp_status response =? 422)%Z
             then throw InvalidProjectKeyException
             else console_error
                    [ VStr "LogArc request failed";
                      VObj [ ("status", VNum (resp_status response));
                             ("body", resp_data response) ] ]
         | NetworkError message stack =>
             console_error
               [ VStr "LogArc request failed";
                 VObj [ ("message", VStr message); ("stack", VStr stack) ] ]
         end) ;;;
        throw (AxiosError err)
    end).

(** [log(level, message = null, data = null)] (lines 129-154). *)
Definition log (rt : Runtime) (this : LogArcService) (level message data : JSValue)
  : JS Promise :=
  async (
    let message := default_param message VNull in
    let data := default_param data VNull in
    c <- caller_metadata (error_stack rt) ;;
    let (className, lineNumber) := c in
    stamp <- lift (moment_tz_format rt (timezone this) "YYYY-MM-DDTHH:mm:ss[Z]") ;;
    let logData :=
      VObj [ ("project_key", projectKey this);
             ("log_timestamp", stamp);
             ("app_env", env this);
             ("level", level);
             ("class_name", className);
             ("method_name", className);
             ("line_number", lineNumber);
             ("message", message);
             ("data", data);
             ("user", js_or (user this) VNull) ] in
    sent <- sendLogRequest rt this logData ;;
    await sent ;;;
    ret VUndefined).

(** The eight severity methods (lines 73-124).  Each calls [log] as an
    expression statement, so the promise of [log] is dropped, and falls off
    the end of its body, so the caller receives undefined. *)

(** [debug(message = null, data = null)] (lines 73-75). *)
Definition debug (rt : Runtime) (this : LogArcService) (message data : JSValue)
  : JS Returned :=
  let message := default_param message VNull in
  let data := default_param data VNull in
  p <- log rt this (VStr "debug") message data ;;
  drop_promise p ;;;
  ret (RetValue VUndefined).

(** [info(message = null, data = null)] (lines 80-82). *)
Definition info (rt : Runtime) (this : LogArcService) (message data : JSValue)
  : JS Returned :=
  let message := default_param message VNull in
  let data := default_param data VNull in
  p <- log rt this (VStr "info") message data ;;
  drop_promise p ;;;
  ret (RetValue VUndefined).

(** [error(message = null, data = null)] (lines 87-89). *)
Definition error (rt : Runtime) (this : LogArcService) (message data : JSValue)
  : JS Returned :=
  let message := default_param message VNull in
  let data := default_param data VNull in
  p <- log rt this (VStr "error") message data ;;
  drop_promise p ;;;
  ret (RetValue VUndefined).

(** [notice(message = null, data = null)] (lines 94-96). *)
Definition notice (rt : Runtime) (this : LogArcService) (message data : JSValue)
  : JS Returned :=
  let message := default_param message VNull in
  let data := default_param data VNull in
  p <- log rt this (VStr "notice") message data ;;
  drop_promise p ;;;
  ret (RetValue VUndefined).

(** [warning(message = null, data = null)] (lines 101-103). *)
Definition warning (rt : Runtime) (this : LogArcService) (message data : JSValue)
  : JS Returned :=
  let message := default_param message VNull in
  let data := default_param data VNull in
  p <- log rt this (VStr "warning") message data ;;
  drop_promise p ;;;
  ret (RetValue VUndefined).

(** [critical(message = null, data = null)] (lines 108-110). *)
Definition critical (rt : Runtime) (this : LogArcService) (message data : JSValue)
  : JS Returned :=
  let message := default_param message VNull in
  let data := default_param data VNull in
  p <- log rt this (VStr "critical") message data ;;
  drop_promise p ;;;
  ret (RetValue VUndefined).

(** [alert(message = null, data = null)] (lines 115-117). *)
Definition alert (rt : Runtime) (this : LogArcService) (message data : JSValue)
  : JS Returned :=
  let message := default_param message VNull in
  let data := default_param data VNull in
  p <- log rt this (VStr "alert") message data ;;
  drop_promise p ;;;
  ret (RetValue VUndefined).

(** [emergency(message = null, data = null)] (lines 122-124). *)
Definition emergency (rt : Runtime) (this : LogArcService) (message data : JSValue)
  : JS Returned :=
  let message := default_param message VNull in
  let data := default_param data VNull in
  p <- log rt this (VStr "emergency") message data ;;
  drop_promise p ;;;
  ret (RetValue VUndefined).

(** The methods by name. *)
Definition severity_methods
  : list (string * (Runtime -> LogArcService -> JSValue -> JSValue -> JS Returned)) :=
  [ ("debug", debug); ("info", info); ("notice", notice); ("warning", warning);
    ("error", error); ("critical", critical); ("alert", alert);
    ("emergency", emergency) ].

(* ===================================================================== *)
(** ** Concrete runtimes and inputs *)
(* ===================================================================== *)

Definition lines (l : list string) : string := concat (String newline "") l.

(** A stack as Node prints it when [info] is called from line 42 of
    /app/server.js. *)
Definition sample_stack : string :=
  lines [ "Error";
          "    at LogArcService.log (/app/node_modules/logarc/src/index.js:131:19)";
          "    at LogArcService.info (/app/node_modules/logarc/src/index.js:81:10)";
          "    at Object.<anonymous> (/app/server.js:42:8)";
          "    at Module._compile (node:internal/modules/cjs/loader:1105:14)" ].

(** 2024-03-09 07:05:03 on the wall clock of every zone named by a string;
    any other zone name is refused. *)
Definition sample_tz (_ : Z) (zone : JSValue) : Completion CivilTime :=
  match zone with
  | VStr _ => Normal (mkCivil 2024 3 9 7 5 3)
  | _ => Throw (Error_ "Time zone name must be a string")
  end.

Definition server_with (reply : ServerReply) : Runtime :=
  mkRuntime sample_stack 1709967903000 sample_tz (fun _ => reply).

Definition sample_service : LogArcService :=
  mkService (VStr "abc") (VStr "https://logarc.com/api") (VStr "production")
    (VStr "UTC") VNull.

(* ===================================================================== *)
(** ** Vocabulary of the statements *)
(* ===================================================================== *)

(** The words of the specification for the time stamp: the wall-clock
    fields as YYYY-MM-DDTHH:mm:ss, then the letter Z. *)
Definition wall_clock_stamp (t : CivilTime) : string :=
  zeroFill (year t) 4 ++ "-" ++ zeroFill (month t) 2 ++ "-" ++ zeroFill (day t) 2
    ++ "T" ++ zeroFill (hour t) 2 ++ ":" ++ zeroFill (minute t) 2 ++ ":"
    ++ zeroFill (second t) 2 ++ "Z".

(** The request [sendLogRequest] issues for a payload. *)
Definition log_request (this : LogArcService) (payload : JSValue) : Request :=
  mkRequest (ToString (endpoint this) ++ "/log") payload
    [("Accept", "application/json")].

Definition add_request (req : Request) (w : World) : World :=
  mkWorld (requests w ++ [req]) (console w) (unhandled w).

Definition add_console (args : list JSValue) (w : World) : World :=
  mkWorld (requests w) (console w ++ [args]) (unhandled w).

(** The properties of the object [log] builds (lines 139-150), given the
    caller metadata and the wall-clock time that went into it. *)
Definition log_props (this : LogArcService) (level message data : JSValue)
    (className lineNumber : JSValue) (t : CivilTime) : list (string * JSValue) :=
  [ ("project_key", projectKey this);
    ("log_timestamp", VStr (wall_clock_stamp t));
    ("app_env", env this);
    ("level", level);
    ("class_name", className);
    ("method_name", className);
    ("line_number", lineNumber);
    ("message", message);
    ("data", data);
    ("user", js_or (user this) VNull) ].

Definition log_payload (this : LogArcService) (level message data : JSValue)
    (className lineNumber : JSValue) (t : CivilTime) : JSValue :=
  VObj (log_props this level message data className lineNumber t).

(** The diagnostic [console.error] prints for an HTTP error response and
    for a failure without response (lines 175-184). *)
Definition http_diagnostic (st : Z) (b : JSValue) : list JSValue :=
  [ VStr "LogArc request failed"; VObj [ ("status", VNum st); ("body", b) ] ].

Definition network_diagnostic (m s : string) : list JSValue :=
  [ VStr "LogArc request failed"; VObj [ ("message", VStr m); ("stack", VStr s) ] ].

Definition is_2xx (st : Z) : bool := (200 <=? st)%Z && (st <? 300)%Z.

(** Every character of [s] is in the class. *)
Fixpoint all_chars (cls : ascii -> bool) (s : string) : bool :=
  match s with
  | EmptyString => true
  | String c s' => cls c && all_chars cls s'
  end.

(** The line of the stack that [log] inspects: index 3, or the empty string
    when the stack is shorter. *)
Definition caller_line (stack_text : string) : string :=
  match nth_error (split newline stack_text) 3 with
  | Some l => l
  | None => ""
  end.

(** The values of [AppEnv]. *)
Definition environments : list JSValue :=
  [VStr "local"; VStr "development"; VStr "staging"; VStr "production"].

(** The primitive values other than null and undefined. *)
Definition primitive (v : JSValue) : bool :=
  match v with
  | VBool _ | VNum _ | VNaN | VStr _ => true
  | _ => false
  end.

(** No character [a] of [s] is directly followed by a character of the
    class [p]. *)
Fixpoint no_pair (a : ascii) (p : ascii -> bool) (s : string) : bool :=
  match s with
  | EmptyString => true
  | String c s' =>
      match s' with
      | EmptyString => true
      | String d _ => negb (Ascii.eqb c a && p d) && no_pair a p s'
      end
  end.

(** A stack frame as V8 prints it for a named call site:
    indentation, [at NAME (FILE:LINE:COLUMN)], and whatever follows. *)
Definition frame (indent name file line col rest : string) : string :=
  indent ++ "at " ++ name ++ " (" ++ file ++ ":" ++ line ++ ":" ++ col ++ ")" ++ rest.

(** A string has a shape when it is as long as the shape and each
    character is in the class at its position. *)
Fixpoint has_shape (shape : list (ascii -> bool)) (s : string) : bool :=
  match shape, s with
  | [], EmptyString => true
  | cls :: shape', String c s' => cls c && has_shape shape' s'
  | _, _ => false
  end.

(** dddd-dd-ddTdd:dd:ddZ *)
Definition stamp_shape : list (ascii -> bool) :=
  let only c := Ascii.eqb c in
  [ digit; digit; digit; digit; only "-"%char; digit; digit; only "-"%char;
    digit; digit; only "T"%char; digit; digit; only ":"%char; digit; digit;
    only ":"%char; digit; digit; only "Z"%char ].

(** What ends up among the unhandled rejections when a severity method has
    dropped the promise of [log], by the server's answer. *)
Definition dropped_rejection (reply : ServerReply) : list JsError :=
  match reply with
  | Responded st b =>
      if is_2xx st then []
      else if (st =? 422)%Z then [InvalidProjectKeyException]
           else [AxiosError (HttpError (mkResponse st b))]
  | NoResponse m s => [AxiosError (NetworkError m s)]
  end.

(** A configuration lacks a project key when the property is absent or is
    the empty string. *)
Definition lacks_project_key (props : list (string * JSValue)) : Prop :=
  assoc "project_key" props = None \/ assoc "project_key" props = Some (VStr "").

(* ===================================================================== *)
(** ** Construction *)
(* ===================================================================== *)

Lemma bind_normal {A B} (m : JS A) (k : A -> JS B) w a w' :
  m w = (Normal a, w') -> bind m k w = k a w'.
Proof. intros H. unfold bind. now rewrite H. Qed.

Lemma bind_throw {A B} (m : JS A) (k : A -> JS B) w e w' :
  m w = (Throw e, w') -> bind m k w = (Throw e, w').
Proof. intros H. unfold bind. now rewrite H. Qed.

Lemma lacking_key_is_falsy props :
  lacks_project_key props -> truthy (obj_get props "project_key") = false.
Proof.
  unfold obj_get. intros [H | H]; rewrite H; reflexivity.
Qed.

Lemma getProjectKey_missing props w :
  truthy (obj_get props "project_key") = false ->
  getProjectKey (VObj props) w = (Throw ProjectKeyNotFoundException, w).
Proof.
  intros H. unfold getProjectKey, bind, lift, get_prop, throw.
  now rewrite H.
Qed.

Lemma getProjectKey_present props w :
  truthy (obj_get props "project_key") = true ->
  getProjectKey (VObj props) w = (Normal (obj_get props "project_key"), w).
Proof.
  intros H. unfold getProjectKey, bind, lift, get_prop, throw.
  now rewrite H.
Qed.

Lemma constructor_without_key props user w :
  truthy (obj_get props "project_key") = false ->
  constructor (VObj props) user w = (Throw ProjectKeyNotFoundException, w).
Proof.
  intros H. unfold constructor. cbn [default_param].
  apply bind_throw, getProjectKey_missing, H.
Qed.

(** C3: a configuration whose project key is absent or empty (the omitted
    configuration included) makes the constructor throw
    ProjectKeyNotFoundException, and the world is left as it was: no request
    has been issued. *)
Theorem C3_missing_project_key_fails :
  forall (config user : JSValue) (w : World),
    (config = VUndefined \/
     exists props, config = VObj props /\ lacks_project_key props) ->
    constructor config user w = (Throw ProjectKeyNotFoundException, w).
Proof.
  intros config user w [-> | (props & -> & Hk)].
  - reflexivity.
  - apply constructor_without_key, lacking_key_is_falsy, Hk.
Qed.

Lemma C3_missing_project_key_fails_witness :
  constructor (VObj [("endpoint", VStr "https://logs.example/api")]) VNull empty_world
  = (Throw ProjectKeyNotFoundException, empty_world).
Proof.
  apply C3_missing_project_key_fails.
  right. exists [("endpoint", VStr "https://logs.example/api")].
  split; [reflexivity | left; reflexivity].
Defined.

(** C10: the project key is checked before the environment: a configuration
    that lacks a project key and carries an environment outside AppEnv
    fails with ProjectKeyNotFoundException, not with the invalid-environment
    error. *)
Theorem C10_project_key_checked_first :
  forall (props : list (string * JSValue)) (user e : JSValue) (w : World),
    lacks_project_key props ->
    assoc "env" props = Some e ->
    includes (Object_values AppEnv) e = false ->
    constructor (VObj props) user w = (Throw ProjectKeyNotFoundException, w)
    /\ constructor (VObj props) user w
       <> (Throw (Error_ ("Invalid environment: " ++ ToString e)), w).
Proof.
  intros props user e w Hk _ _.
  rewrite (constructor_without_key props user w (lacking_key_is_falsy _ Hk)).
  split; [reflexivity | discriminate].
Qed.

Lemma C10_project_key_checked_first_witness :
  constructor (VObj [("env", VStr "bogus")]) VNull empty_world
  = (Throw ProjectKeyNotFoundException, empty_world)
  /\ constructor (VObj [("env", VStr "bogus")]) VNull empty_world
     <> (Throw (Error_ ("Invalid environment: " ++ ToString (VStr "bogus"))), empty_world).
Proof.
  apply (C10_project_key_checked_first [("env", VStr "bogus")] VNull (VStr "bogus")).
  - left; reflexivity.
  - reflexivity.
  - reflexivity.
Defined.

(** C4, as the specification states it, fails on two inputs: an environment
    that is present but empty is accepted (it is replaced by production),
    and without a project key an unknown environment is not what the
    constructor reports. *)
Lemma C4_counterexample :
  constructor (VObj [("project_key", VStr "abc"); ("env", VStr "")]) VNull empty_world
  = (Normal (mkService (VStr "abc") (VStr "https://logarc.com/api")
               (VStr "production") (VStr "UTC") VNull), empty_world)
  /\ constructor (VObj [("env", VStr "bogus")]) VNull empty_world
     = (Throw ProjectKeyNotFoundException, empty_world).
Proof. split; reflexivity. Qed.

(** C4 (amended): with a project key in place, an environment value that is
    truthy and is not one of the four values of AppEnv makes the constructor
    throw Error "Invalid environment: <value>", the world untouched. *)
Theorem C4_unknown_environment_fails :
  forall (props : list (string * JSValue)) (user e : JSValue) (w : World),
    truthy (obj_get props "project_key") = true ->
    assoc "env" props = Some e ->
    truthy e = true ->
    includes (Object_values AppEnv) e = false ->
    constructor (VObj props) user w
    = (Throw (Error_ ("Invalid environment: " ++ ToString e)), w).
Proof.
  intros props user e w Hk He Ht Hin.
  unfold constructor. cbn [default_param].
  rewrite (bind_normal _ _ _ _ _ (getProjectKey_present props w Hk)).
  assert (Henv : obj_get props "env" = e) by (unfold obj_get; now rewrite He).
  unfold bind, lift, get_prop. rewrite Henv.
  unfold js_or at 1 2. rewrite Ht, Hin. reflexivity.
Qed.

Lemma C4_unknown_environment_fails_witness :
  constructor (VObj [("project_key", VStr "abc"); ("env", VStr "qa")]) VNull empty_world
  = (Throw (Error_ "Invalid environment: qa"), empty_world).
Proof.
  apply (C4_unknown_environment_fails
           [("project_key", VStr "abc"); ("env", VStr "qa")] VNull (VStr "qa"));
    reflexivity.
Defined.

(* ===================================================================== *)
(** ** The logging call *)
(* ===================================================================== *)

Lemma format_pattern (t : CivilTime) :
  moment_format t "YYYY-MM-DDTHH:mm:ss[Z]" = Some (wall_clock_stamp t).
Proof. reflexivity. Qed.

Lemma stamp_of_wall_clock rt zone t :
  tz rt (now rt) zone = Normal t ->
  moment_tz_format rt zone "YYYY-MM-DDTHH:mm:ss[Z]" = Normal (VStr (wall_clock_stamp t)).
Proof.
  intros H. unfold moment_tz_format. rewrite H, format_pattern. reflexivity.
Qed.

Lemma caller_metadata_cases (s : string) (w : World) :
  caller_metadata s w =
  match str_match caller_pattern (caller_line s) with
  | Some arr => (Normal (nth 1 arr VUndefined, parseInt (nth 3 arr VUndefined)), w)
  | None => (Normal (VStr "UnknownClass", VNum 0), w)
  end.
Proof.
  unfold caller_metadata.
  assert (E : match nth_error (split newline s) 3 with
              | Some l => if negb (String.eqb l "") then l else ""
              | None => ""
              end
              = match nth_error (split newline s) 3 with
                | Some l => l
                | None => ""
                end).
  { destruct (nth_error (split newline s) 3) as [l |]; [| reflexivity].
    destruct (String.eqb_spec l ""); subst; reflexivity. }
  cbv zeta. rewrite E. fold (caller_line s).
  destruct (str_match caller_pattern _) as [arr |]; reflexivity.
Qed.

Lemma caller_metadata_total (s : string) (w : World) :
  exists c l, caller_metadata s w = (Normal (c, l), w).
Proof.
  rewrite caller_metadata_cases.
  destruct (str_match caller_pattern _) as [arr |]; eauto.
Qed.

Lemma sendLogRequest_run rt this payload w :
  let req := log_request this payload in
  sendLogRequest rt this payload w =
  match server rt req with
  | Responded st b =>
      if is_2xx st then (Normal (Fulfilled b), add_request req w)
      else if (st =? 422)%Z
           then (Normal (Rejected InvalidProjectKeyException), add_request req w)
           else (Normal (Rejected (AxiosError (HttpError (mkResponse st b)))),
                 add_console (http_diagnostic st b) (add_request req w))
  | NoResponse m s =>
      (Normal (Rejected (AxiosError (NetworkError m s))),
       add_console (network_diagnostic m s) (add_request req w))
  end.
Proof.
  cbv zeta. unfold sendLogRequest, async, bind, axios_post, log_request, is_2xx.
  destruct (server rt _) as [st b | m s]; [| reflexivity].
  destruct ((200 <=? st)%Z && (st <? 300)%Z); [reflexivity |].
  cbn [resp_status]. destruct (st =? 422)%Z; reflexivity.
Qed.

Lemma log_run rt this level message data w t :
  tz rt (now rt) (timezone this) = Normal t ->
  exists c l,
    caller_metadata (error_stack rt) w = (Normal (c, l), w) /\
    let req := log_request this
                 (log_payload this level (default_param message VNull)
                    (default_param data VNull) c l t) in
    log rt this level message data w =
    match server rt req with
    | Responded st b =>
        if is_2xx st then (Normal (Fulfilled VUndefined), add_request req w)
        else if (st =? 422)%Z
             then (Normal (Rejected InvalidProjectKeyException), add_request req w)
             else (Normal (Rejected (AxiosError (HttpError (mkResponse st b)))),
                   add_console (http_diagnostic st b) (add_request req w))
    | NoResponse m s =>
        (Normal (Rejected (AxiosError (NetworkError m s))),
         add_console (network_diagnostic m s) (add_request req w))
    end.
Proof.
  intros Ht.
  destruct (caller_metadata_total (error_stack rt) w) as (c & l & Hc).
  exists c, l. split; [exact Hc |].
  cbv zeta. unfold log, async.
  rewrite (bind_normal _ _ _ _ _ Hc).
  unfold bind at 1. unfold lift at 1.
  rewrite (stamp_of_wall_clock _ _ _ Ht).
  unfold bind at 1. fold (log_payload this level (default_param message VNull)
                            (default_param data VNull) c l t).
  rewrite sendLogRequest_run. cbv zeta.
  destruct (server rt _) as [st b | m s]; [| reflexivity].
  destruct (is_2xx st); [reflexivity |].
  destruct (st =? 422)%Z; reflexivity.
Qed.

(** Whatever the server does, [log] issues exactly the one request. *)
Lemma log_issues_request rt this level message data w t :
  tz rt (now rt) (timezone this) = Normal t ->
  exists c l,
    caller_metadata (error_stack rt) w = (Normal (c, l), w) /\
    exists p w',
      log rt this level message data w = (Normal p, w') /\
      requests w' =
      (requests w ++
         [log_request this
            (log_payload this level (default_param message VNull)
               (default_param data VNull) c l t)])%list.
Proof.
  intros Ht.
  destruct (log_run rt this level message data w t Ht) as (c & l & Hc & Hlog).
  exists c, l. split; [exact Hc |].
  cbv zeta in Hlog. rewrite Hlog.
  destruct (server rt _) as [st b | m s]; [| eexists; eexists; split; reflexivity].
  destruct (is_2xx st); [eexists; eexists; split; reflexivity |].
  destruct (st =? 422)%Z; eexists; eexists; split; reflexivity.
Qed.

Lemma log_request_pinned rt this level message data w t :
  tz rt (now rt) (timezone this) = Normal t ->
  exists c l,
    let props := log_props this level (default_param message VNull)
                   (default_param data VNull) c l t in
    let req := log_request this (VObj props) in
    requests (snd (log rt this level message data w)) = (requests w ++ [req])%list
    /\ log rt this level message data w =
       match server rt req with
       | Responded st b =>
           if is_2xx st then (Normal (Fulfilled VUndefined), add_request req w)
           else if (st =? 422)%Z
                then (Normal (Rejected InvalidProjectKeyException), add_request req w)
                else (Normal (Rejected (AxiosError (HttpError (mkResponse st b)))),
                      add_console (http_diagnostic st b) (add_request req w))
       | NoResponse m s =>
           (Normal (Rejected (AxiosError (NetworkError m s))),
            add_console (network_diagnostic m s) (add_request req w))
       end.
Proof.
  intros Ht.
  destruct (log_issues_request rt this level message data w t Ht)
    as (c & l & Hc & p & w' & Hrun & Hreq).
  destruct (log_run rt this level message data w t Ht) as (c' & l' & Hc' & Hlog).
  rewrite Hc in Hc'. injection Hc' as <- <-.
  exists c, l. cbv zeta. split.
  - rewrite Hrun. exact Hreq.
  - exact Hlog.
Qed.

(** Each severity method runs [log] with its own name, drops the promise
    and returns undefined. *)
Lemma severity_run name m :
  In (name, m) severity_methods ->
  forall rt this message data w,
    m rt this message data w =
    match log rt this (VStr name) (default_param message VNull)
            (default_param data VNull) w with
    | (Normal p, w') => (Normal (RetValue VUndefined), snd (drop_promise p w'))
    | (Throw e, w') => (Throw e, w')
    end.
Proof.
  intros H rt this message data w. simpl in H.
  repeat (destruct H as [H | H];
          [ injection H as <- <-;
            match goal with
            | |- ?f _ _ _ _ _ = _ => unfold f
            end;
            unfold bind;
            destruct (log _ _ _ _ _ _) as [[p | e] w']; [| reflexivity];
            unfold drop_promise; destruct p; reflexivity
          | ]).
  contradiction.
Qed.

Lemma default_null_idem v :
  default_param (default_param v VNull) VNull = default_param v VNull.
Proof. destruct v; reflexivity. Qed.

Lemma requests_drop_promise p w :
  requests (snd (drop_promise p w)) = requests w.
Proof. destruct p; reflexivity. Qed.

(** Whatever the server does, a severity method hands undefined back. *)
Lemma severity_returns_undefined name m :
  In (name, m) severity_methods ->
  forall rt this message data w,
    fst (m rt this message data w) = Normal (RetValue VUndefined).
Proof.
  intros H rt this message data w. rewrite (severity_run _ _ H).
  unfold log, async. cbv zeta.
  destruct (bind _ _ w) as [[v | e] w']; reflexivity.
Qed.

(** C1 (the code departs from it): with a server answering 500, the promise
    of [log] rejects with the transport error, yet [info] hands its caller
    undefined, which awaits to a fulfilled undefined; the rejection ends up
    with no handler. *)
Theorem C1_failure_is_dropped :
  let rt := server_with (Responded 500 (VStr "boom")) in
  let failure := AxiosError (HttpError (mkResponse 500 (VStr "boom"))) in
  fst (log rt sample_service (VStr "info") (VStr "hello") VNull empty_world)
  = Normal (Rejected failure)
  /\ exists w',
      info rt sample_service (VStr "hello") VUndefined empty_world
      = (Normal (RetValue VUndefined), w')
      /\ awaited (RetValue VUndefined) = Fulfilled VUndefined
      /\ unhandled w' = [failure].
Proof.
  cbv zeta. split; [reflexivity |].
  eexists. split; [reflexivity |]. split; reflexivity.
Qed.

(** C2: when the server answers the request of a logging call with status
    422, the promise of [log] (and of [sendLogRequest]) rejects with
    InvalidProjectKeyException; the generic handling is skipped: nothing is
    written to the console and the transport error is not what is thrown. *)
Theorem C2_status_422_rejects_with_invalid_project_key :
  forall rt this level message data w t,
    tz rt (now rt) (timezone this) = Normal t ->
    exists props,
      let req := log_request this (VObj props) in
      requests (snd (log rt this level message data w)) = (requests w ++ [req])%list
      /\ forall b,
        server rt req = Responded 422 b ->
        log rt this level message data w
        = (Normal (Rejected InvalidProjectKeyException), add_request req w)
        /\ sendLogRequest rt this (VObj props) w
           = (Normal (Rejected InvalidProjectKeyException), add_request req w)
        /\ console (add_request req w) = console w.
Proof.
  intros rt this level message data w t Ht.
  destruct (log_request_pinned rt this level message data w t Ht)
    as (c & l & Hreq & Hlog).
  exists (log_props this level (default_param message VNull)
            (default_param data VNull) c l t).
  cbv zeta. split; [exact Hreq |]. intros b Hs.
  rewrite Hlog, sendLogRequest_run. cbv zeta. rewrite Hs.
  repeat split; reflexivity.
Qed.

Lemma C2_status_422_rejects_with_invalid_project_key_witness :
  exists props,
    log (server_with (Responded 422 (VStr "unknown key"))) sample_service
      (VStr "error") (VStr "hello") VNull empty_world
    = (Normal (Rejected InvalidProjectKeyException),
       add_request (log_request sample_service (VObj props)) empty_world).
Proof.
  destruct (C2_status_422_rejects_with_invalid_project_key
              (server_with (Responded 422 (VStr "unknown key"))) sample_service
              (VStr "error") (VStr "hello") VNull empty_world
              (mkCivil 2024 3 9 7 5 3) eq_refl) as [props [_ H]].
  exists props. apply (H (VStr "unknown key")). reflexivity.
Defined.

(** C6: when the server answers with a status outside 200..299 other than
    422, or no response arrives, [console.error] has been called with the
    status and body, respectively the message and stack, and the promise of
    [log] rejects with the very error axios produced. *)
Theorem C6_diagnostic_then_rethrow :
  forall rt this level message data w t,
    tz rt (now rt) (timezone this) = Normal t ->
    exists props,
      let req := log_request this (VObj props) in
      requests (snd (log rt this level message data w)) = (requests w ++ [req])%list
      /\ (forall st b,
          server rt req = Responded st b ->
          is_2xx st = false ->
          st <> 422%Z ->
          axios_post rt (url req) (body req) (headers req) w
          = (Normal (AxRejected (HttpError (mkResponse st b))), add_request req w)
          /\ log rt this level message data w
             = (Normal (Rejected (AxiosError (HttpError (mkResponse st b)))),
                add_console (http_diagnostic st b) (add_request req w)))
      /\ (forall m s,
            server rt req = NoResponse m s ->
            axios_post rt (url req) (body req) (headers req) w
            = (Normal (AxRejected (NetworkError m s)), add_request req w)
            /\ log rt this level message data w
               = (Normal (Rejected (AxiosError (NetworkError m s))),
                  add_console (network_diagnostic m s) (add_request req w))).
Proof.
  intros rt this level message data w t Ht.
  destruct (log_request_pinned rt this level message data w t Ht)
    as (c & l & Hreq & Hlog).
  exists (log_props this level (default_param message VNull)
            (default_param data VNull) c l t).
  cbv zeta. split; [exact Hreq |].
  rewrite Hlog. unfold axios_post, log_request. cbn [url body headers].
  split.
  - intros st b Hs H2 H422. rewrite Hs, H2.
    unfold is_2xx in H2. rewrite H2.
    apply Z.eqb_neq in H422. rewrite H422.
    split; reflexivity.
  - intros m s Hs. rewrite Hs. split; reflexivity.
Qed.

Lemma C6_diagnostic_then_rethrow_witness :
  (exists props,
     log (server_with (Responded 500 (VStr "boom"))) sample_service
       (VStr "error") (VStr "hello") VNull empty_world
     = (Normal (Rejected (AxiosError (HttpError (mkResponse 500 (VStr "boom"))))),
        add_console (http_diagnostic 500 (VStr "boom"))
          (add_request (log_request sample_service (VObj props)) empty_world)))
  /\ (exists props,
        log (server_with (NoResponse "connect ECONNREFUSED" "trace")) sample_service
          (VStr "error") (VStr "hello") VNull empty_world
        = (Normal (Rejected (AxiosError (NetworkError "connect ECONNREFUSED" "trace"))),
           add_console (network_diagnostic "connect ECONNREFUSED" "trace")
             (add_request (log_request sample_service (VObj props)) empty_world))).
Proof.
  split.
  - destruct (C6_diagnostic_then_rethrow
                (server_with (Responded 500 (VStr "boom"))) sample_service
                (VStr "error") (VStr "hello") VNull empty_world
                (mkCivil 2024 3 9 7 5 3) eq_refl) as [props [_ [H _]]].
    exists props. apply (H 500%Z (VStr "boom")).
    + reflexivity.
    + reflexivity.
    + discriminate.
  - destruct (C6_diagnostic_then_rethrow
                (server_with (NoResponse "connect ECONNREFUSED" "trace")) sample_service
                (VStr "error") (VStr "hello") VNull empty_world
                (mkCivil 2024 3 9 7 5 3) eq_refl) as [props [_ [_ H]]].
    exists props. apply (H "connect ECONNREFUSED" "trace"). reflexivity.
Defined.

(** C7, as the specification states it, fails: the server answers 200 with
    the body "ok", and the promise of [log] is fulfilled with undefined. *)
Lemma C7_counterexample :
  let rt := server_with (Responded 200 (VStr "ok")) in
  (forall req, server rt req = Responded 200 (VStr "ok"))
  /\ fst (log rt sample_service (VStr "info") (VStr "hello") VNull empty_world)
     = Normal (Fulfilled VUndefined)
  /\ Fulfilled VUndefined <> Fulfilled (VStr "ok").
Proof.
  cbv zeta. split; [reflexivity |]. split; [reflexivity | discriminate].
Qed.

(** C7 (amended): when the server answers with a status in 200..299, the
    promise of [sendLogRequest] is fulfilled with the decoded body, and the
    promise of [log] is fulfilled with undefined. *)
Theorem C7_success_resolves :
  forall rt this level message data w t,
    tz rt (now rt) (timezone this) = Normal t ->
    exists props,
      let req := log_request this (VObj props) in
      requests (snd (log rt this level message data w)) = (requests w ++ [req])%list
      /\ forall st b,
        server rt req = Responded st b ->
        is_2xx st = true ->
        sendLogRequest rt this (VObj props) w = (Normal (Fulfilled b), add_request req w)
        /\ log rt this level message data w
           = (Normal (Fulfilled VUndefined), add_request req w).
Proof.
  intros rt this level message data w t Ht.
  destruct (log_request_pinned rt this level message data w t Ht)
    as (c & l & Hreq & Hlog).
  exists (log_props this level (default_param message VNull)
            (default_param data VNull) c l t).
  cbv zeta. split; [exact Hreq |]. intros st b Hs H2.
  rewrite Hlog, sendLogRequest_run. cbv zeta. rewrite Hs, H2.
  split; reflexivity.
Qed.

Lemma C7_success_resolves_witness :
  exists props,
    sendLogRequest (server_with (Responded 201 (VStr "stored"))) sample_service
      (VObj props) empty_world
    = (Normal (Fulfilled (VStr "stored")),
       add_request (log_request sample_service (VObj props)) empty_world)
    /\ log (server_with (Responded 201 (VStr "stored"))) sample_service
         (VStr "notice") (VStr "hello") VNull empty_world
       = (Normal (Fulfilled VUndefined),
          add_request (log_request sample_service (VObj props)) empty_world).
Proof.
  destruct (C7_success_resolves
              (server_with (Responded 201 (VStr "stored"))) sample_service
              (VStr "notice") (VStr "hello") VNull empty_world
              (mkCivil 2024 3 9 7 5 3) eq_refl) as [props [_ H]].
  exists props. apply (H 201%Z (VStr "stored")); reflexivity.
Defined.

Lemma constructor_only_key key this w0 :
  constructor (VObj [("project_key", key)]) VUndefined w0 = (Normal this, w0) ->
  this = mkService key (VStr "https://logarc.com/api") (VStr "production")
           (VStr "UTC") VNull.
Proof.
  destruct (truthy key) eqn:Hk.
  - unfold constructor. cbn [default_param].
    rewrite (bind_normal _ _ _ _ _
               (getProjectKey_present [("project_key", key)] w0 Hk)).
    cbn. intros H. injection H as <-. reflexivity.
  - rewrite constructor_without_key by exact Hk. discriminate.
Qed.

(** C5: each severity method issues exactly one request; the payload's
    level is the method's name, its message and data are the arguments (null
    for an omitted one); for a service built from a configuration that holds
    only the project key, app_env is "production" and user is null. *)
Theorem C5_one_request_carrying_the_call :
  forall name m,
    In (name, m) severity_methods ->
    forall rt this message data w t,
      tz rt (now rt) (timezone this) = Normal t ->
      exists props r w',
        m rt this message data w = (Normal r, w')
        /\ requests w' = (requests w ++ [log_request this (VObj props)])%list
        /\ obj_get props "level" = VStr name
        /\ obj_get props "message" = default_param message VNull
        /\ obj_get props "data" = default_param data VNull
        /\ (forall key w0,
              constructor (VObj [("project_key", key)]) VUndefined w0
              = (Normal this, w0) ->
              obj_get props "project_key" = key
              /\ obj_get props "app_env" = VStr "production"
              /\ obj_get props "user" = VNull).
Proof.
  intros name m Hm rt this message data w t Ht.
  destruct (log_issues_request rt this (VStr name) (default_param message VNull)
              (default_param data VNull) w t Ht)
    as (c & l & _ & p & w' & Hrun & Hreq).
  rewrite !default_null_idem in Hreq.
  exists (log_props this (VStr name) (default_param message VNull)
            (default_param data VNull) c l t),
         (RetValue VUndefined), (snd (drop_promise p w')).
  rewrite (severity_run _ _ Hm), Hrun, requests_drop_promise.
  split; [reflexivity |]. split; [exact Hreq |].
  repeat (split; [reflexivity |]).
  intros key w0 Hc. rewrite (constructor_only_key _ _ _ Hc).
  repeat split; reflexivity.
Qed.

Lemma C5_one_request_carrying_the_call_witness :
  constructor (VObj [("project_key", VStr "abc")]) VUndefined empty_world
  = (Normal sample_service, empty_world)
  /\ exists props r w',
      info (server_with (Responded 200 (VStr "ok"))) sample_service
        (VStr "hello") VUndefined empty_world = (Normal r, w')
      /\ requests w' = [log_request sample_service (VObj props)]
      /\ obj_get props "level" = VStr "info"
      /\ obj_get props "message" = VStr "hello"
      /\ obj_get props "data" = VNull
      /\ obj_get props "project_key" = VStr "abc"
      /\ obj_get props "app_env" = VStr "production"
      /\ obj_get props "user" = VNull.
Proof.
  split; [reflexivity |].
  destruct (C5_one_request_carrying_the_call "info" info
              (or_intror (or_introl eq_refl))
              (server_with (Responded 200 (VStr "ok"))) sample_service
              (VStr "hello") VUndefined empty_world
              (mkCivil 2024 3 9 7 5 3) eq_refl)
    as (props & r & w' & Hrun & Hreq & Hl & Hm & Hd & Hk).
  exists props, r, w'.
  destruct (Hk (VStr "abc") empty_world eq_refl) as (Hp & He & Hu).
  repeat split; assumption.
Defined.

(** C8: the log_timestamp of the payload is the wall-clock time of the
    configured zone at the instant of the call, printed as
    YYYY-MM-DDTHH:mm:ss and followed by the letter Z, whatever the zone's
    offset. *)
Theorem C8_timestamp_is_zone_wall_clock :
  forall rt this level message data w t,
    tz rt (now rt) (timezone this) = Normal t ->
    exists props,
      requests (snd (log rt this level message data w))
      = (requests w ++ [log_request this (VObj props)])%list
      /\ moment_tz_format rt (timezone this) "YYYY-MM-DDTHH:mm:ss[Z]"
         = Normal (VStr (wall_clock_stamp t))
      /\ obj_get props "log_timestamp" = VStr (wall_clock_stamp t).
Proof.
  intros rt this level message data w t Ht.
  destruct (log_request_pinned rt this level message data w t Ht)
    as (c & l & Hreq & _).
  exists (log_props this level (default_param message VNull)
            (default_param data VNull) c l t).
  split; [exact Hreq |].
  split; [apply stamp_of_wall_clock, Ht | reflexivity].
Qed.

Lemma C8_timestamp_is_zone_wall_clock_witness :
  exists props,
    requests (snd (log (server_with (Responded 200 (VStr "ok")))
                     (mkService (VStr "abc") (VStr "https://logarc.com/api")
                        (VStr "production") (VStr "Asia/Kathmandu") VNull)
                     (VStr "info") (VStr "hello") VNull empty_world))
    = [log_request (mkService (VStr "abc") (VStr "https://logarc.com/api")
                      (VStr "production") (VStr "Asia/Kathmandu") VNull)
         (VObj props)]
    /\ obj_get props "log_timestamp" = VStr "2024-03-09T07:05:03Z".
Proof.
  destruct (C8_timestamp_is_zone_wall_clock
              (server_with (Responded 200 (VStr "ok")))
              (mkService (VStr "abc") (VStr "https://logarc.com/api")
                 (VStr "production") (VStr "Asia/Kathmandu") VNull)
              (VStr "info") (VStr "hello") VNull empty_world
              (mkCivil 2024 3 9 7 5 3) eq_refl)
    as (props & Hreq & _ & Hstamp).
  exists props. split; [exact Hreq | exact Hstamp].
Defined.

(* ===================================================================== *)
(** ** Caller metadata *)
(* ===================================================================== *)

Lemma append_snoc (acc : string) (c : ascii) (txt : string) :
  (acc ++ String c "") ++ txt = acc ++ String c txt.
Proof. induction acc as [| a acc IH]; simpl; [reflexivity | now rewrite IH]. Qed.

Section LoopInversion.
Context {R : Type}.
Variable cls : ascii -> bool.
Variable k : string -> string -> option R.

(** A loop that succeeds consumed a non-empty run of its class before
    the rest of the pattern took over. *)
Lemma lazy_plus_inv s : forall acc r,
  lazy_plus cls k acc s = Some r ->
  exists txt s', txt <> "" /\ all_chars cls txt = true /\ k (acc ++ txt) s' = Some r.
Proof.
  induction s as [| c s IH]; intros acc r H; simpl in H; [discriminate |].
  destruct (cls c) eqn:Hc; [| discriminate].
  destruct (k (acc ++ String c "") s) as [r' |] eqn:Hk.
  - injection H as <-. exists (String c ""), s. simpl. rewrite Hc.
    repeat split; [discriminate | exact Hk].
  - apply IH in H as (txt & s' & _ & Hall & Hk').
    exists (String c txt), s'. simpl. rewrite Hc, Hall.
    rewrite append_snoc in Hk'. repeat split; [discriminate | exact Hk'].
Qed.

Lemma greedy_plus_inv s : forall acc r,
  greedy_plus cls k acc s = Some r ->
  exists txt s', txt <> "" /\ all_chars cls txt = true /\ k (acc ++ txt) s' = Some r.
Proof.
  induction s as [| c s IH]; intros acc r H; simpl in H; [discriminate |].
  destruct (cls c) eqn:Hc; [| discriminate].
  destruct (greedy_plus cls k (acc ++ String c "") s) as [r' |] eqn:Hg.
  - injection H as <-.
    apply IH in Hg as (txt & s' & _ & Hall & Hk').
    exists (String c txt), s'. simpl. rewrite Hc, Hall.
    rewrite append_snoc in Hk'. repeat split; [discriminate | exact Hk'].
  - exists (String c ""), s. simpl. rewrite Hc.
    repeat split; [discriminate | exact H].
Qed.
End LoopInversion.

Ltac literal H s :=
  destruct s as [| ?c s]; [discriminate H |];
  cbn [match_here] in H;
  match type of H with
  | (if ?b then _ else _) = _ => destruct b; [| discriminate H]
  end.

(** A match of the caller pattern binds its three groups, and the third is
    a non-empty run of digits. *)
Lemma caller_pattern_groups s caps rest :
  match_here (atoms caller_pattern) [] s = Some (caps, rest) ->
  exists g1 g2 g3,
    caps = [(3%nat, g3); (2%nat, g2); (1%nat, g1)]
    /\ g3 <> "" /\ all_chars digit g3 = true.
Proof.
  intros H. cbn [atoms caller_pattern] in H.
  literal H s. literal H s. literal H s.
  cbn [match_here] in H.
  apply lazy_plus_inv in H as (g1 & s1 & _ & _ & H).
  cbn [record_group] in H.
  literal H s1. literal H s1.
  cbn [match_here] in H.
  apply lazy_plus_inv in H as (g2 & s2 & _ & _ & H).
  cbn [record_group] in H.
  literal H s2.
  cbn [match_here] in H.
  apply greedy_plus_inv in H as (g3 & s3 & Hne & Hdig & H).
  cbn [record_group] in H.
  literal H s3.
  cbn [match_here] in H.
  apply greedy_plus_inv in H as (g4 & s4 & _ & _ & H).
  cbn [record_group] in H.
  literal H s4.
  cbn [match_here] in H. injection H as <- _.
  exists g1, g2, g3. repeat split; assumption.
Qed.

Lemma str_match_inv re s : forall arr,
  str_match re s = Some arr ->
  exists s0 r, match_here (atoms re) [] s0 = Some r /\ arr = match_array re s0 r.
Proof.
  induction s as [| c s IH]; intros arr H; simpl in H.
  - destruct (match_here (atoms re) [] "") as [r |] eqn:Hm; [| discriminate].
    injection H as <-. eauto.
  - destruct (match_here (atoms re) [] (String c s)) as [r |] eqn:Hm.
    + injection H as <-. eauto.
    + apply IH, H.
Qed.

Lemma digit_not_space c : digit c = true -> is_space c = false.
Proof.
  destruct c as [[] [] [] [] [] [] [] []]; vm_compute; congruence.
Qed.

Lemma leading_digits_some s : forall a,
  (0 <= a)%Z -> exists b, leading_digits s (Some a) = Some b /\ (0 <= b)%Z.
Proof.
  induction s as [| c s IH]; intros a Ha; cbn [leading_digits].
  - eauto.
  - destruct (digit c) eqn:Hc; [| eauto].
    apply IH. unfold digit in Hc. apply andb_prop in Hc as [Hlo _].
    apply Nat.leb_le in Hlo. lia.
Qed.

(** [parseInt] of a non-empty run of digits is a number, never NaN. *)
Lemma parseInt_digits g :
  g <> "" -> all_chars digit g = true ->
  exists n, parseInt (VStr g) = VNum n /\ (0 <= n)%Z.
Proof.
  intros Hne Hall. destruct g as [| c g]; [congruence |].
  simpl in Hall. apply andb_prop in Hall as [Hc _].
  unfold parseInt. cbn [ToString skip_spaces].
  rewrite (digit_not_space c Hc).
  assert (Hsign : match String c g with
                  | String "-" s' => ((-1)%Z, s')
                  | String "+" s' => (1%Z, s')
                  | _ => (1%Z, String c g)
                  end = (1%Z, String c g)).
  { destruct c as [[] [] [] [] [] [] [] []]; try reflexivity; discriminate Hc. }
  rewrite Hsign. cbn [leading_digits]. rewrite Hc.
  destruct (leading_digits_some g (10 * 0 + (Z.of_nat (nat_of_ascii c) - 48))%Z)
    as (b & Hb & Hpos).
  { unfold digit in Hc. apply andb_prop in Hc as [Hlo _].
    apply Nat.leb_le in Hlo. lia. }
  rewrite Hb. exists (1 * b)%Z. split; [reflexivity | lia].
Qed.

(** C9: reading the caller metadata never throws, whatever the stack text.
    The line inspected is the one at index 3; when the stack has no such
    line, or the line does not match the pattern, the result is
    "UnknownClass" and 0; when it matches, the result is the first group and
    the number the third group spells. *)
Theorem C9_caller_metadata_never_throws :
  forall (stack_text : string) (w : World),
    (exists c l, caller_metadata stack_text w = (Normal (c, l), w))
    /\ (nth_error (split newline stack_text) 3 = None ->
        caller_metadata stack_text w = (Normal (VStr "UnknownClass", VNum 0), w))
    /\ (str_match caller_pattern (caller_line stack_text) = None ->
        caller_metadata stack_text w = (Normal (VStr "UnknownClass", VNum 0), w))
    /\ (forall arr,
          str_match caller_pattern (caller_line stack_text) = Some arr ->
          exists g n,
            nth 1 arr VUndefined = VStr g /\ (0 <= n)%Z
            /\ caller_metadata stack_text w = (Normal (VStr g, VNum n), w)).
Proof.
  intros stack_text w. split; [apply caller_metadata_total |].
  rewrite caller_metadata_cases. split; [| split].
  - intros Hnone. unfold caller_line. rewrite Hnone. reflexivity.
  - intros Hnone. rewrite Hnone. reflexivity.
  - intros arr Hsome. rewrite Hsome.
    apply str_match_inv in Hsome as (s0 & [caps rest] & Hm & ->).
    apply caller_pattern_groups in Hm as (g1 & g2 & g3 & -> & Hne & Hdig).
    destruct (parseInt_digits g3 Hne Hdig) as (n & Hn & Hpos).
    exists g1, n. cbn. rewrite Hn. repeat split; [exact Hpos].
Qed.

Lemma C9_caller_metadata_never_throws_witness :
  caller_metadata "Error" empty_world
  = (Normal (VStr "UnknownClass", VNum 0), empty_world)
  /\ caller_metadata (lines ["Error"; "one"; "two"; "    at /app/server.js:42:8"])
       empty_world
     = (Normal (VStr "UnknownClass", VNum 0), empty_world)
  /\ exists n,
      caller_metadata sample_stack empty_world
      = (Normal (VStr "Object.<anonymous>", VNum n), empty_world).
Proof.
  split; [| split].
  - apply (C9_caller_metadata_never_throws "Error" empty_world). reflexivity.
  - apply (C9_caller_metadata_never_throws
             (lines ["Error"; "one"; "two"; "    at /app/server.js:42:8"])
             empty_world).
    reflexivity.
  - destruct (C9_caller_metadata_never_throws sample_stack empty_world)
      as (_ & _ & _ & H).
    destruct (H _ eq_refl) as (g & n & Hg & _ & Hrun).
    exists n. injection Hg as <-. exact Hrun.
Defined.

(* ===================================================================== *)
(** ** Shape of the time stamp *)
(* ===================================================================== *)

Lemma length_append (s1 s2 : string) :
  String.length (s1 ++ s2) = (String.length s1 + String.length s2)%nat.
Proof. induction s1 as [| c s1 IH]; simpl; [reflexivity | now rewrite IH]. Qed.

Lemma append_assoc (s1 s2 s3 : string) : (s1 ++ s2) ++ s3 = s1 ++ s2 ++ s3.
Proof. induction s1 as [| c s1 IH]; simpl; [reflexivity | now rewrite IH]. Qed.

Lemma zeroFill_width_upto (k : nat) (bound : Z) :
  forallb (fun i => Nat.eqb (String.length (zeroFill (Z.of_nat i) k)) k)
    (seq 0 (Z.to_nat bound))
  = true ->
  forall n, (0 <= n < bound)%Z -> String.length (zeroFill n k) = k.
Proof.
  intros H n Hn. rewrite forallb_forall in H.
  specialize (H (Z.to_nat n)). rewrite Z2Nat.id in H by lia.
  apply Nat.eqb_eq, H, in_seq. lia.
Qed.

Lemma zeroFill_two n : (0 <= n < 100)%Z -> String.length (zeroFill n 2) = 2%nat.
Proof. apply (zeroFill_width_upto 2 100). vm_compute. reflexivity. Qed.

Lemma zeroFill_four n : (0 <= n < 10000)%Z -> String.length (zeroFill n 4) = 4%nat.
Proof. apply (zeroFill_width_upto 4 10000). vm_compute. reflexivity. Qed.

(** For a calendar time (a year of at most four digits), the stamp is the
    nineteen characters of YYYY-MM-DDTHH:mm:ss and then Z. *)
Lemma wall_clock_stamp_shape t :
  (0 <= year t < 10000)%Z -> (1 <= month t <= 12)%Z -> (1 <= day t <= 31)%Z ->
  (0 <= hour t < 24)%Z -> (0 <= minute t < 60)%Z -> (0 <= second t < 60)%Z ->
  exists body,
    wall_clock_stamp t = body ++ "Z" /\ String.length body = 19%nat.
Proof.
  intros Hy Hmo Hd Hh Hmi Hs.
  exists (zeroFill (year t) 4 ++ "-" ++ zeroFill (month t) 2 ++ "-"
          ++ zeroFill (day t) 2 ++ "T" ++ zeroFill (hour t) 2 ++ ":"
          ++ zeroFill (minute t) 2 ++ ":" ++ zeroFill (second t) 2).
  split.
  - unfold wall_clock_stamp. now rewrite !append_assoc.
  - rewrite !length_append, zeroFill_four by lia.
    rewrite !zeroFill_two by lia. reflexivity.
Qed.


(* ===================================================================== *)
(** ** More on construction *)
(* ===================================================================== *)

Lemma includes_environments (e : JSValue) :
  includes (Object_values AppEnv) e = true <-> In e environments.
Proof.
  unfold includes, Object_values, AppEnv, environments. cbn [map snd existsb In].
  split.
  - intros H. rewrite !orb_true_iff in H.
    destruct e; cbn [same_value_zero] in H;
      try (destruct H as [H | [H | [H | [H | H]]]]; discriminate H).
    destruct H as [H | [H | [H | [H | H]]]];
      try (apply String.eqb_eq in H; subst; tauto); discriminate H.
  - intros [<- | [<- | [<- | [<- | []]]]]; reflexivity.
Qed.

Lemma constructor_object props user w :
  constructor (VObj props) user w =
  if truthy (obj_get props "project_key") then
    if includes (Object_values AppEnv)
         (js_or (obj_get props "env") (VStr "production"))
    then (Normal (mkService (obj_get props "project_key")
                    (js_or (obj_get props "endpoint") (VStr "https://logarc.com/api"))
                    (js_or (obj_get props "env") (VStr "production"))
                    (js_or (obj_get props "timezone") (VStr "UTC"))
                    (default_param user VNull)), w)
    else (Throw (Error_ ("Invalid environment: "
                           ++ ToString (js_or (obj_get props "env") (VStr "production")))),
          w)
  else (Throw ProjectKeyNotFoundException, w).
Proof.
  destruct (truthy (obj_get props "project_key")) eqn:Hk.
  - unfold constructor. cbn [default_param].
    rewrite (bind_normal _ _ _ _ _ (getProjectKey_present props w Hk)).
    unfold bind, lift, get_prop.
    change (obj_get AppEnv "PRODUCTION") with (VStr "production").
    destruct (includes _ _); reflexivity.
  - apply constructor_without_key, Hk.
Qed.

(** An object configuration is accepted exactly when its project key is
    truthy and its env is either falsy (then production is taken) or one of
    the four values of AppEnv, compared as strings, case and all. *)
Theorem constructor_accepts_iff :
  forall (props : list (string * JSValue)) (user : JSValue) (w : World),
    (exists this, constructor (VObj props) user w = (Normal this, w))
    <-> truthy (obj_get props "project_key") = true
        /\ (truthy (obj_get props "env") = false
            \/ In (obj_get props "env") environments).
Proof.
  intros props user w. rewrite constructor_object. split.
  - intros [this H].
    destruct (truthy (obj_get props "project_key")); [| discriminate H].
    split; [reflexivity |].
    destruct (includes _ _) eqn:Hin; [| discriminate H].
    unfold js_or in Hin.
    destruct (truthy (obj_get props "env")); [right | left; reflexivity].
    apply includes_environments, Hin.
  - intros [Hk He]. rewrite Hk.
    assert (Hin : includes (Object_values AppEnv)
                    (js_or (obj_get props "env") (VStr "production")) = true).
    { unfold js_or. destruct He as [Hf | Hin].
      - rewrite Hf. reflexivity.
      - destruct (truthy (obj_get props "env")); [| reflexivity].
        apply includes_environments, Hin. }
    rewrite Hin. eauto.
Qed.

Lemma constructor_accepts_iff_witness :
  (exists this,
      constructor (VObj [("project_key", VNum 7); ("env", VStr "staging")]) VNull
        empty_world = (Normal this, empty_world))
  /\ ~ (exists this,
          constructor (VObj [("project_key", VStr "abc"); ("env", VStr "Production")])
            VNull empty_world = (Normal this, empty_world)).
Proof.
  split.
  - apply (proj2 (constructor_accepts_iff
                    [("project_key", VNum 7); ("env", VStr "staging")] VNull empty_world)).
    split; [reflexivity | right; cbn; tauto].
  - intros H.
    apply (proj1 (constructor_accepts_iff
                    [("project_key", VStr "abc"); ("env", VStr "Production")]
                    VNull empty_world)) in H.
    destruct H as [_ [H | H]]; [discriminate H |].
    cbn in H. repeat (destruct H as [H | H]; [discriminate H |]). exact H.
Defined.

(** Whatever it is given, a service that the constructor returns has a
    truthy project key, an env among the four of AppEnv, a truthy endpoint
    and time zone, and a user that is not undefined. *)
Theorem constructed_service_invariant :
  forall (config u : JSValue) (w w' : World) (this : LogArcService),
    constructor config u w = (Normal this, w') ->
    truthy (projectKey this) = true
    /\ In (env this) environments
    /\ truthy (endpoint this) = true
    /\ truthy (timezone this) = true
    /\ user this <> VUndefined.
Proof.
  intros config user0 w w' this H.
  assert (Hobj : exists props, constructor (VObj props) user0 w = (Normal this, w')).
  { destruct config; try (exists []; exact H); try discriminate H.
    exists props. exact H. }
  destruct Hobj as [props Hc]. rewrite constructor_object in Hc.
  destruct (truthy (obj_get props "project_key")) eqn:Hk; [| discriminate Hc].
  destruct (includes _ _) eqn:Hin; [| discriminate Hc].
  injection Hc as <- _. cbn [projectKey env endpoint timezone user].
  split; [exact Hk |].
  split; [apply includes_environments, Hin |].
  split; [unfold js_or; destruct (truthy (obj_get props "endpoint")) eqn:E;
          [exact E | reflexivity] |].
  split; [unfold js_or; destruct (truthy (obj_get props "timezone")) eqn:E;
          [exact E | reflexivity] |].
  destruct user0; discriminate.
Qed.

Lemma constructed_service_invariant_witness :
  truthy (projectKey sample_service) = true
  /\ In (env sample_service) environments
  /\ truthy (endpoint sample_service) = true
  /\ truthy (timezone sample_service) = true
  /\ user sample_service <> VUndefined.
Proof.
  apply (constructed_service_invariant
           (VObj [("project_key", VStr "abc")]) VUndefined empty_world empty_world).
  reflexivity.
Defined.

(** The constructor performs no input or output: on every argument, failing
    or not, it leaves the world as it found it. *)
Theorem constructor_leaves_world :
  forall (config user : JSValue) (w : World),
    snd (constructor config user w) = w.
Proof.
  intros config user w.
  destruct config; try reflexivity;
    try (change (snd (constructor (VObj []) user w) = w);
         rewrite constructor_object; reflexivity).
  rewrite constructor_object.
  destruct (truthy _); [destruct (includes _ _) |]; reflexivity.
Qed.

(** A configuration that is not an object: null makes the constructor throw
    a TypeError (the default applies to an omitted argument only); a
    boolean, a number or a string has no project_key and is refused with
    ProjectKeyNotFoundException. *)
Theorem constructor_non_object_config :
  forall (config user : JSValue) (w : World),
    (config = VNull ->
     exists msg, constructor config user w = (Throw (TypeError msg), w))
    /\ (primitive config = true ->
        constructor config user w = (Throw ProjectKeyNotFoundException, w)).
Proof.
  intros config user w. split.
  - intros ->. eexists. reflexivity.
  - intros H. destruct config; try discriminate H; reflexivity.
Qed.

Lemma constructor_non_object_config_witness :
  (exists msg, constructor VNull VNull empty_world = (Throw (TypeError msg), empty_world))
  /\ constructor (VStr "abc") VNull empty_world
     = (Throw ProjectKeyNotFoundException, empty_world).
Proof.
  split.
  - apply (constructor_non_object_config VNull VNull empty_world). reflexivity.
  - apply (constructor_non_object_config (VStr "abc") VNull empty_world). reflexivity.
Defined.

(* ===================================================================== *)
(** ** More on the logging call *)
(* ===================================================================== *)

(** When moment-timezone refuses the configured zone, [log] rejects with
    that error before anything is sent: no request, no console output; a
    severity method still returns undefined, the rejection left unhandled. *)
Theorem zone_refused_nothing_sent :
  forall rt this level message data w e,
    tz rt (now rt) (timezone this) = Throw e ->
    log rt this level message data w = (Normal (Rejected e), w)
    /\ forall name m,
         In (name, m) severity_methods ->
         m rt this message data w
         = (Normal (RetValue VUndefined),
            mkWorld (requests w) (console w) (unhandled w ++ [e])).
Proof.
  intros rt this level message data w e Ht.
  assert (Hlog : forall lv msg dt, log rt this lv msg dt w = (Normal (Rejected e), w)).
  { intros lv msg dt.
    destruct (caller_metadata_total (error_stack rt) w) as (c & l & Hc).
    unfold log, async. cbv zeta.
    rewrite (bind_normal _ _ _ _ _ Hc).
    unfold bind at 1. unfold lift, moment_tz_format. rewrite Ht. reflexivity. }
  split; [apply Hlog |].
  intros name m Hm. rewrite (severity_run _ _ Hm), Hlog. reflexivity.
Qed.

Lemma zone_refused_nothing_sent_witness :
  let this := mkService (VStr "abc") (VStr "https://logarc.com/api")
                (VStr "production") (VNum 5) VNull in
  let e := Error_ "Time zone name must be a string" in
  log (server_with (Responded 200 (VStr "ok"))) this (VStr "info") (VStr "hello")
    VNull empty_world
  = (Normal (Rejected e), empty_world)
  /\ warning (server_with (Responded 200 (VStr "ok"))) this (VStr "hello") VNull
       empty_world
     = (Normal (RetValue VUndefined), mkWorld [] [] [e]).
Proof.
  cbv zeta.
  destruct (zone_refused_nothing_sent
              (server_with (Responded 200 (VStr "ok")))
              (mkService (VStr "abc") (VStr "https://logarc.com/api")
                 (VStr "production") (VNum 5) VNull)
              (VStr "info") (VStr "hello") VNull empty_world
              (Error_ "Time zone name must be a string") eq_refl) as [Hlog Hm].
  split; [exact Hlog |].
  apply (Hm "warning" warning). cbn. tauto.
Defined.

(** The wire format: when the zone is accepted, [log] posts to
    <endpoint>/log, with the one header Accept: application/json, an object
    of exactly these ten properties in this order; class_name and
    method_name are both the class name of the caller metadata. *)
Theorem log_wire_format :
  forall rt this level message data w t,
    tz rt (now rt) (timezone this) = Normal t ->
    exists className lineNumber stamp p w',
      caller_metadata (error_stack rt) w = (Normal (className, lineNumber), w)
      /\ moment_tz_format rt (timezone this) "YYYY-MM-DDTHH:mm:ss[Z]" = Normal stamp
      /\ log rt this level message data w = (Normal p, w')
      /\ requests w' =
         (requests w ++
            [mkRequest (ToString (endpoint this) ++ "/log")
               (VObj [ ("project_key", projectKey this);
                       ("log_timestamp", stamp);
                       ("app_env", env this);
                       ("level", level);
                       ("class_name", className);
                       ("method_name", className);
                       ("line_number", lineNumber);
                       ("message", default_param message VNull);
                       ("data", default_param data VNull);
                       ("user", js_or (user this) VNull) ])
               [("Accept", "application/json")]])%list.
Proof.
  intros rt this level message data w t Ht.
  destruct (log_issues_request rt this level message data w t Ht)
    as (c & l & Hc & p & w' & Hrun & Hreq).
  exists c, l, (VStr (wall_clock_stamp t)), p, w'.
  split; [exact Hc |].
  split; [apply stamp_of_wall_clock, Ht |].
  split; [exact Hrun | exact Hreq].
Qed.

Lemma log_wire_format_witness :
  exists p w',
    log (server_with (Responded 200 (VStr "ok"))) sample_service (VStr "info")
      (VStr "hello") VUndefined empty_world = (Normal p, w')
    /\ requests w' =
       [mkRequest "https://logarc.com/api/log"
          (VObj [ ("project_key", VStr "abc");
                  ("log_timestamp", VStr "2024-03-09T07:05:03Z");
                  ("app_env", VStr "production");
                  ("level", VStr "info");
                  ("class_name", VStr "Object.<anonymous>");
                  ("method_name", VStr "Object.<anonymous>");
                  ("line_number", VNum 42);
                  ("message", VStr "hello");
                  ("data", VNull);
                  ("user", VNull) ])
          [("Accept", "application/json")]].
Proof.
  destruct (log_wire_format (server_with (Responded 200 (VStr "ok"))) sample_service
              (VStr "info") (VStr "hello") VUndefined empty_world
              (mkCivil 2024 3 9 7 5 3) eq_refl)
    as (c & l & stamp & p & w' & Hc & Hs & Hrun & Hreq).
  exists p, w'. split; [exact Hrun |].
  injection Hc as <- <-. injection Hs as <-. exact Hreq.
Defined.

Lemma snoc_neq {A} (l : list A) (x : A) : (l ++ [x])%list <> l.
Proof.
  intros H. apply (f_equal (@List.length A)) in H.
  rewrite length_app in H. simpl in H. lia.
Qed.

(** [sendLogRequest] never throws to its caller and issues exactly one
    request; its promise is fulfilled exactly when the server answers with a
    status in 200..299, and the console stays silent exactly when the
    answer is such a status or 422. *)
Theorem sendLogRequest_outcome :
  forall rt this payload w,
    exists p w',
      sendLogRequest rt this payload w = (Normal p, w')
      /\ requests w' = (requests w ++ [log_request this payload])%list
      /\ unhandled w' = unhandled w
      /\ ((exists v, p = Fulfilled v)
          <-> exists st b, server rt (log_request this payload) = Responded st b
                           /\ is_2xx st = true)
      /\ (console w' = console w
          <-> exists st b, server rt (log_request this payload) = Responded st b
                           /\ (is_2xx st = true \/ st = 422%Z)).
Proof.
  intros rt this payload w. rewrite sendLogRequest_run. cbv zeta.
  destruct (server rt (log_request this payload)) as [st b | m s].
  - destruct (is_2xx st) eqn:H2.
    + eexists; eexists. repeat (split; [reflexivity |]). split; split; eauto.
    + destruct (Z.eqb_spec st 422) as [-> | Hne].
      * eexists; eexists. repeat (split; [reflexivity |]). split; split.
        -- intros [v Hv]. discriminate Hv.
        -- intros (st' & b' & Heq & H2'). injection Heq as <- <-. discriminate H2'.
        -- eauto.
        -- reflexivity.
      * eexists; eexists. repeat (split; [reflexivity |]). split; split.
        -- intros [v Hv]. discriminate Hv.
        -- intros (st' & b' & Heq & H2'). injection Heq as <- <-.
           rewrite H2 in H2'. discriminate H2'.
        -- cbn. intros H. now apply snoc_neq in H.
        -- intros (st' & b' & Heq & [H2' | H422]); injection Heq as <- <-.
           ++ rewrite H2 in H2'. discriminate H2'.
           ++ contradiction.
  - eexists; eexists. repeat (split; [reflexivity |]). split; split.
    + intros [v Hv]. discriminate Hv.
    + intros (st' & b' & Heq & _). discriminate Heq.
    + cbn. intros H. now apply snoc_neq in H.
    + intros (st' & b' & Heq & _). discriminate Heq.
Qed.

(** What a severity method leaves behind: it returns undefined, has issued
    the one request, and the unhandled rejections have grown by the failure
    of the delivery, if it failed: nothing for a 2xx answer,
    InvalidProjectKeyException for 422, the axios error otherwise. *)
Theorem severity_outcome :
  forall name m,
    In (name, m) severity_methods ->
    forall rt this message data w t,
      tz rt (now rt) (timezone this) = Normal t ->
      exists props w',
        m rt this message data w = (Normal (RetValue VUndefined), w')
        /\ requests w' = (requests w ++ [log_request this (VObj props)])%list
        /\ obj_get props "level" = VStr name
        /\ unhandled w' =
           (unhandled w
              ++ dropped_rejection (server rt (log_request this (VObj props))))%list.
Proof.
  intros name m Hm rt this message data w t Ht.
  destruct (log_request_pinned rt this (VStr name) (default_param message VNull)
              (default_param data VNull) w t Ht) as (c & l & _ & Hlog).
  cbv zeta in Hlog. rewrite !default_null_idem in Hlog.
  exists (log_props this (VStr name) (default_param message VNull)
            (default_param data VNull) c l t).
  rewrite (severity_run _ _ Hm), Hlog. unfold dropped_rejection.
  destruct (server rt _) as [st b | ms ss].
  - destruct (is_2xx st).
    + eexists. split; [reflexivity |]. cbn. rewrite app_nil_r. repeat split.
    + destruct (st =? 422)%Z; eexists; (split; [reflexivity |]); cbn; repeat split.
  - eexists. split; [reflexivity |]. cbn. repeat split.
Qed.

Lemma severity_outcome_witness :
  exists props w',
    critical (server_with (Responded 422 (VStr "no"))) sample_service (VStr "down")
      VNull empty_world = (Normal (RetValue VUndefined), w')
    /\ requests w' = [log_request sample_service (VObj props)]
    /\ obj_get props "level" = VStr "critical"
    /\ unhandled w' = [InvalidProjectKeyException].
Proof.
  destruct (severity_outcome "critical" critical
              (or_intror (or_intror (or_intror (or_intror
                 (or_intror (or_introl eq_refl))))))
              (server_with (Responded 422 (VStr "no"))) sample_service (VStr "down")
              VNull empty_world (mkCivil 2024 3 9 7 5 3) eq_refl)
    as (props & w' & Hrun & Hreq & Hl & Hu).
  exists props, w'. repeat split; assumption.
Defined.

Lemma zeroFill_digits_upto (k : nat) (bound : Z) :
  forallb (fun i => all_chars digit (zeroFill (Z.of_nat i) k)
                    && Nat.eqb (String.length (zeroFill (Z.of_nat i) k)) k)
    (seq 0 (Z.to_nat bound))
  = true ->
  forall n, (0 <= n < bound)%Z ->
    all_chars digit (zeroFill n k) = true /\ String.length (zeroFill n k) = k.
Proof.
  intros H n Hn. rewrite forallb_forall in H.
  specialize (H (Z.to_nat n)). rewrite Z2Nat.id in H by lia.
  apply andb_prop in H; [| apply in_seq; lia].
  destruct H as [Hd Hl]. split; [exact Hd | apply Nat.eqb_eq, Hl].
Qed.

Lemma zeroFill_two_digits n :
  (0 <= n < 100)%Z ->
  exists a b, zeroFill n 2 = String a (String b "")
              /\ digit a = true /\ digit b = true.
Proof.
  intros Hn.
  destruct (zeroFill_digits_upto 2 100 ltac:(vm_compute; reflexivity) n Hn) as [Hd Hl].
  destruct (zeroFill n 2) as [| a [| b [| c s]]]; try discriminate Hl.
  cbn in Hd. apply andb_prop in Hd as [Ha Hb]. apply andb_prop in Hb as [Hb _].
  eauto.
Qed.

Lemma zeroFill_four_digits n :
  (0 <= n < 10000)%Z ->
  exists a b c d, zeroFill n 4 = String a (String b (String c (String d "")))
                  /\ digit a = true /\ digit b = true
                  /\ digit c = true /\ digit d = true.
Proof.
  intros Hn.
  destruct (zeroFill_digits_upto 4 10000 ltac:(vm_compute; reflexivity) n Hn) as [Hd Hl].
  destruct (zeroFill n 4) as [| a [| b [| c [| d [| e s]]]]]; try discriminate Hl.
  cbn in Hd.
  apply andb_prop in Hd as [Ha Hd]. apply andb_prop in Hd as [Hb Hd].
  apply andb_prop in Hd as [Hc Hd]. apply andb_prop in Hd as [Hd _].
  exists a, b, c, d. auto.
Qed.

(** For a calendar time with a year of at most four digits, the
    log_timestamp that [log] sends has the shape dddd-dd-ddTdd:dd:ddZ:
    twenty characters, digits and separators each at their place. *)
Theorem log_timestamp_shape :
  forall rt this level message data w t,
    tz rt (now rt) (timezone this) = Normal t ->
    (0 <= year t < 10000)%Z -> (1 <= month t <= 12)%Z -> (1 <= day t <= 31)%Z ->
    (0 <= hour t < 24)%Z -> (0 <= minute t < 60)%Z -> (0 <= second t < 60)%Z ->
    exists props stamp,
      requests (snd (log rt this level message data w))
      = (requests w ++ [log_request this (VObj props)])%list
      /\ obj_get props "log_timestamp" = VStr stamp
      /\ has_shape stamp_shape stamp = true.
Proof.
  intros rt this level message data w t Ht Hy Hmo Hd Hh Hmi Hs.
  destruct (log_request_pinned rt this level message data w t Ht)
    as (c & l & Hreq & _).
  exists (log_props this level (default_param message VNull)
            (default_param data VNull) c l t), (wall_clock_stamp t).
  split; [exact Hreq |]. split; [reflexivity |].
  unfold wall_clock_stamp.
  destruct (zeroFill_four_digits (year t)) as (y1 & y2 & y3 & y4 & -> & ? & ? & ? & ?);
    [lia |].
  destruct (zeroFill_two_digits (month t)) as (m1 & m2 & -> & ? & ?); [lia |].
  destruct (zeroFill_two_digits (day t)) as (d1 & d2 & -> & ? & ?); [lia |].
  destruct (zeroFill_two_digits (hour t)) as (h1 & h2 & -> & ? & ?); [lia |].
  destruct (zeroFill_two_digits (minute t)) as (i1 & i2 & -> & ? & ?); [lia |].
  destruct (zeroFill_two_digits (second t)) as (s1 & s2 & -> & ? & ?); [lia |].
  cbn.
  repeat match goal with
         | H : digit _ = true |- _ => rewrite H; clear H
         end.
  reflexivity.
Qed.

Lemma log_timestamp_shape_witness :
  exists props stamp,
    requests (snd (log (server_with (Responded 200 (VStr "ok"))) sample_service
                     (VStr "info") (VStr "hello") VNull empty_world))
    = [log_request sample_service (VObj props)]
    /\ obj_get props "log_timestamp" = VStr stamp
    /\ has_shape stamp_shape stamp = true.
Proof.
  apply (log_timestamp_shape (server_with (Responded 200 (VStr "ok"))) sample_service
           (VStr "info") (VStr "hello") VNull empty_world (mkCivil 2024 3 9 7 5 3));
    cbn; try reflexivity; lia.
Defined.

Lemma js_or_default_null u : js_or (default_param u VNull) VNull = js_or u VNull.
Proof. destruct u; reflexivity. Qed.

(** Construction followed by a call: a service built from an accepted
    configuration posts to the configured endpoint (or to
    https://logarc.com/api) with the configured project key, an app_env
    among the four of AppEnv, and the user given at construction, null when
    there was none or a falsy one. *)
Theorem construct_then_log :
  forall props u w0 this name m rt message data w t,
    constructor (VObj props) u w0 = (Normal this, w0) ->
    In (name, m) severity_methods ->
    tz rt (now rt) (js_or (obj_get props "timezone") (VStr "UTC")) = Normal t ->
    exists fields r w',
      m rt this message data w = (Normal r, w')
      /\ requests w' =
         (requests w ++
            [mkRequest
               (ToString (js_or (obj_get props "endpoint") (VStr "https://logarc.com/api"))
                  ++ "/log")
               (VObj fields) [("Accept", "application/json")]])%list
      /\ obj_get fields "project_key" = obj_get props "project_key"
      /\ obj_get fields "app_env" = js_or (obj_get props "env") (VStr "production")
      /\ In (obj_get fields "app_env") environments
      /\ obj_get fields "user" = js_or u VNull
      /\ obj_get fields "level" = VStr name.
Proof.
  intros props u w0 this name m rt message data w t Hc Hm Ht.
  rewrite constructor_object in Hc.
  destruct (truthy (obj_get props "project_key")); [| discriminate Hc].
  destruct (includes _ _) eqn:Hin; [| discriminate Hc].
  injection Hc as <-.
  set (this := mkService _ _ _ _ _).
  destruct (log_issues_request rt this (VStr name) (default_param message VNull)
              (default_param data VNull) w t Ht)
    as (c & l & _ & p & w' & Hrun & Hreq).
  rewrite !default_null_idem in Hreq.
  exists (log_props this (VStr name) (default_param message VNull)
            (default_param data VNull) c l t), (RetValue VUndefined),
         (snd (drop_promise p w')).
  rewrite (severity_run _ _ Hm), Hrun, requests_drop_promise.
  split; [reflexivity |]. split; [exact Hreq |].
  cbn. repeat split.
  - apply includes_environments, Hin.
  - apply js_or_default_null.
Qed.

Lemma construct_then_log_witness :
  exists fields r w',
    alert (server_with (NoResponse "getaddrinfo ENOTFOUND" "trace"))
      (mkService (VStr "k1") (VStr "https://logs.example/v1") (VStr "staging")
         (VStr "Asia/Kathmandu") (VObj [("id", VNum 1)]))
      (VStr "disk full") VUndefined empty_world = (Normal r, w')
    /\ requests w' =
       [mkRequest "https://logs.example/v1/log" (VObj fields)
          [("Accept", "application/json")]]
    /\ obj_get fields "project_key" = VStr "k1"
    /\ obj_get fields "app_env" = VStr "staging"
    /\ obj_get fields "user" = VObj [("id", VNum 1)]
    /\ obj_get fields "level" = VStr "alert".
Proof.
  destruct (construct_then_log
              [ ("project_key", VStr "k1"); ("endpoint", VStr "https://logs.example/v1");
                ("env", VStr "staging"); ("timezone", VStr "Asia/Kathmandu") ]
              (VObj [("id", VNum 1)]) empty_world
              (mkService (VStr "k1") (VStr "https://logs.example/v1") (VStr "staging")
                 (VStr "Asia/Kathmandu") (VObj [("id", VNum 1)]))
              "alert" alert
              (server_with (NoResponse "getaddrinfo ENOTFOUND" "trace"))
              (VStr "disk full") VUndefined empty_world (mkCivil 2024 3 9 7 5 3)
              eq_refl
              (or_intror (or_intror (or_intror (or_intror (or_intror
                 (or_intror (or_introl eq_refl)))))))
              eq_refl)
    as (fields & r & w' & Hrun & Hreq & Hk & He & _ & Hu & Hl).
  exists fields, r, w'. repeat split; assumption.
Defined.

(* ===================================================================== *)
(** ** Reading numbers back *)
(* ===================================================================== *)

Lemma leading_digits_acc (d : Decimal.uint) : forall acc : positive,
  leading_digits (NilEmpty.string_of_uint d) (Some (Zpos acc))
  = Some (Zpos (Pos.of_uint_acc d acc)).
Proof.
  induction d; intros acc; cbn [NilEmpty.string_of_uint Pos.of_uint_acc];
    [reflexivity | ..];
    cbn [leading_digits];
    match goal with
    | |- context [digit ?c] => change (digit c) with true; cbv iota
    end;
    rewrite <- IHd; f_equal; f_equal;
    try (match goal with
         | |- context [Z.of_nat (nat_of_ascii ?c)] =>
             let v := eval vm_compute in (Z.of_nat (nat_of_ascii c)) in
             change (Z.of_nat (nat_of_ascii c)) with v
         end;
         lia).
Qed.

Lemma leading_digits_zero (d : Decimal.uint) :
  leading_digits (NilEmpty.string_of_uint d) (Some 0%Z)
  = Some (Z.of_N (Pos.of_uint d)).
Proof.
  induction d; cbn [NilEmpty.string_of_uint Pos.of_uint];
    [reflexivity | ..];
    cbn [leading_digits];
    match goal with
    | |- context [digit ?c] => change (digit c) with true; cbv iota
    end;
    [exact IHd | ..];
    cbn [Z.of_N]; rewrite <- leading_digits_acc; reflexivity.
Qed.

Lemma leading_digits_start (d : Decimal.uint) :
  d <> Decimal.Nil ->
  leading_digits (NilEmpty.string_of_uint d) None = Some (Z.of_N (Pos.of_uint d)).
Proof.
  intros Hd. destruct d; [congruence | ..];
    cbn [NilEmpty.string_of_uint leading_digits Pos.of_uint Z.of_N];
    match goal with
    | |- context [digit ?c] => change (digit c) with true; cbv iota
    end;
    [exact (leading_digits_zero d) | ..];
    rewrite <- leading_digits_acc; reflexivity.
Qed.

Lemma string_of_uint_digits (d : Decimal.uint) :
  all_chars digit (NilEmpty.string_of_uint d) = true.
Proof. induction d; cbn [NilEmpty.string_of_uint all_chars]; auto. Qed.

Lemma Z_to_string_nonneg n :
  (0 <= n)%Z ->
  exists d, d <> Decimal.Nil
            /\ Z_to_string n = NilEmpty.string_of_uint d
            /\ Z.of_N (Pos.of_uint d) = n.
Proof.
  intros Hn. destruct n as [| p | p]; [| | lia].
  - exists (Decimal.D0 Decimal.Nil). repeat split. discriminate.
  - exists (Pos.to_uint p). split; [apply DecimalPos.Unsigned.to_uint_nonnil |].
    split.
    + unfold Z_to_string. cbn [Z.to_int NilZero.string_of_int].
      unfold NilZero.string_of_uint.
      pose proof (DecimalPos.Unsigned.to_uint_nonnil p) as Hnn.
      destruct (Pos.to_uint p); [congruence | reflexivity ..].
    + rewrite DecimalPos.Unsigned.of_to. reflexivity.
Qed.

(** A natural number printed in decimal is a non-empty run of digits, and
    [parseInt] reads the same number back. *)
Lemma parseInt_Z_to_string n :
  (0 <= n)%Z ->
  Z_to_string n <> ""
  /\ all_chars digit (Z_to_string n) = true
  /\ parseInt (VStr (Z_to_string n)) = VNum n.
Proof.
  intros Hn. destruct (Z_to_string_nonneg n Hn) as (d & Hd & -> & Hval).
  pose proof (string_of_uint_digits d) as Hall.
  pose proof (leading_digits_start d Hd) as Hlead.
  assert (Hne : NilEmpty.string_of_uint d <> "") by (destruct d; [congruence | discriminate ..]).
  split; [exact Hne |]. split; [exact Hall |].
  destruct (NilEmpty.string_of_uint d) as [| c s]; [congruence |].
  cbn [all_chars] in Hall. apply andb_prop in Hall as [Hc _].
  unfold parseInt. cbn [ToString skip_spaces].
  rewrite (digit_not_space c Hc).
  assert (Hsign : match String c s with
                  | String "-" s' => ((-1)%Z, s')
                  | String "+" s' => (1%Z, s')
                  | _ => (1%Z, String c s)
                  end = (1%Z, String c s)).
  { destruct c as [[] [] [] [] [] [] [] []]; try reflexivity; discriminate Hc. }
  rewrite Hsign, Hlead, Hval. f_equal. lia.
Qed.

(* ===================================================================== *)
(** ** The caller pattern on stack frames *)
(* ===================================================================== *)

Section LoopText.
Context {R : Type}.
Variable cls : ascii -> bool.
Variable k : string -> string -> option R.

(** A loop that succeeds split its input into the run it consumed and the
    input it handed on. *)
Lemma lazy_plus_text s : forall acc r,
  lazy_plus cls k acc s = Some r ->
  exists txt s',
    s = txt ++ s' /\ txt <> "" /\ all_chars cls txt = true
    /\ k (acc ++ txt) s' = Some r.
Proof.
  induction s as [| c s IH]; intros acc r H; simpl in H; [discriminate |].
  destruct (cls c) eqn:Hc; [| discriminate].
  destruct (k (acc ++ String c "") s) as [r' |] eqn:Hk.
  - injection H as <-. exists (String c ""), s. simpl. rewrite Hc.
    repeat split; [discriminate | exact Hk].
  - apply IH in H as (txt & s' & -> & _ & Hall & Hk').
    exists (String c txt), s'. simpl. rewrite Hc, Hall.
    rewrite append_snoc in Hk'. repeat split; [discriminate | exact Hk'].
Qed.

Lemma greedy_plus_text s : forall acc r,
  greedy_plus cls k acc s = Some r ->
  exists txt s',
    s = txt ++ s' /\ txt <> "" /\ all_chars cls txt = true
    /\ k (acc ++ txt) s' = Some r.
Proof.
  induction s as [| c s IH]; intros acc r H; simpl in H; [discriminate |].
  destruct (cls c) eqn:Hc; [| discriminate].
  destruct (greedy_plus cls k (acc ++ String c "") s) as [r' |] eqn:Hg.
  - injection H as <-.
    apply IH in Hg as (txt & s' & -> & _ & Hall & Hk').
    exists (String c txt), s'. simpl. rewrite Hc, Hall.
    rewrite append_snoc in Hk'. repeat split; [discriminate | exact Hk'].
  - exists (String c ""), s. simpl. rewrite Hc.
    repeat split; [discriminate | exact H].
Qed.

(** The lazy loop stops at the first run after which the rest of the
    pattern succeeds. *)
Lemma lazy_plus_first txt : forall acc rest r,
  txt <> "" ->
  all_chars cls txt = true ->
  k (acc ++ txt) rest = Some r ->
  (forall p q, txt = p ++ q -> p <> "" -> q <> "" -> k (acc ++ p) (q ++ rest) = None) ->
  lazy_plus cls k acc (txt ++ rest) = Some r.
Proof.
  induction txt as [| c t IH]; intros acc rest r Hne Hall Hk Hfail; [congruence |].
  cbn [all_chars] in Hall. apply andb_prop in Hall as [Hc Hall].
  cbn [append lazy_plus]. rewrite Hc.
  destruct t as [| d t'].
  - cbn [append]. rewrite Hk. reflexivity.
  - rewrite (Hfail (String c "") (String d t') eq_refl) by discriminate.
    apply IH.
    + discriminate.
    + exact Hall.
    + rewrite append_snoc. exact Hk.
    + intros p q Heq Hp Hq. rewrite append_snoc.
      apply (Hfail (String c p) q); [now rewrite Heq | discriminate | exact Hq].
Qed.

(** The greedy loop takes a whole run when the run cannot be extended and
    the rest of the pattern succeeds after it. *)
Lemma greedy_plus_whole txt : forall acc rest r,
  txt <> "" ->
  all_chars cls txt = true ->
  match rest with
  | String c _ => cls c = false
  | EmptyString => True
  end ->
  k (acc ++ txt) rest = Some r ->
  greedy_plus cls k acc (txt ++ rest) = Some r.
Proof.
  induction txt as [| c t IH]; intros acc rest r Hne Hall Hstop Hk; [congruence |].
  cbn [all_chars] in Hall. apply andb_prop in Hall as [Hc Hall].
  cbn [append greedy_plus]. rewrite Hc.
  destruct t as [| d t'].
  - cbn [append].
    assert (Hnone : greedy_plus cls k (acc ++ String c "") rest = None).
    { destruct rest as [| e rest']; [reflexivity |]. cbn. now rewrite Hstop. }
    rewrite Hnone. exact Hk.
  - rewrite (IH (acc ++ String c "") rest r); try assumption; try reflexivity.
    + discriminate.
    + rewrite append_snoc. exact Hk.
Qed.
End LoopText.

Ltac literal_eq H s :=
  destruct s as [| ?c s]; [discriminate H |];
  cbn [match_here] in H;
  match type of H with
  | (if Ascii.eqb ?a ?c then _ else _) = _ =>
      destruct (Ascii.eqb_spec a c) as [<- | _]; [| discriminate H]
  end.

(** A match of the caller pattern is the text
    [at g1 (g2:g3:g4)] with non-empty groups, the last two of digits. *)
Lemma caller_pattern_text s caps rest :
  match_here (atoms caller_pattern) [] s = Some (caps, rest) ->
  exists g1 g2 g3 g4,
    s = frame "" g1 g2 g3 g4 rest
    /\ caps = [(3%nat, g3); (2%nat, g2); (1%nat, g1)]
    /\ (g1 <> "" /\ all_chars dot g1 = true)
    /\ (g2 <> "" /\ all_chars dot g2 = true)
    /\ (g3 <> "" /\ all_chars digit g3 = true)
    /\ (g4 <> "" /\ all_chars digit g4 = true).
Proof.
  intros H. cbn [atoms caller_pattern] in H.
  literal_eq H s. literal_eq H s. literal_eq H s.
  cbn [match_here] in H.
  apply lazy_plus_text in H as (g1 & s1 & -> & Hn1 & Ha1 & H).
  cbn [record_group] in H.
  literal_eq H s1. literal_eq H s1.
  cbn [match_here] in H.
  apply lazy_plus_text in H as (g2 & s2 & -> & Hn2 & Ha2 & H).
  cbn [record_group] in H.
  literal_eq H s2.
  cbn [match_here] in H.
  apply greedy_plus_text in H as (g3 & s3 & -> & Hn3 & Ha3 & H).
  cbn [record_group] in H.
  literal_eq H s3.
  cbn [match_here] in H.
  apply greedy_plus_text in H as (g4 & s4 & -> & Hn4 & Ha4 & H).
  cbn [record_group] in H.
  literal_eq H s4.
  cbn [match_here] in H. injection H as <- <-.
  exists g1, g2, g3, g4. repeat split; assumption.
Qed.

Lemma str_match_position re s : forall arr,
  str_match re s = Some arr ->
  exists pre s0 r,
    s = pre ++ s0 /\ match_here (atoms re) [] s0 = Some r
    /\ arr = match_array re s0 r.
Proof.
  induction s as [| c s IH]; intros arr H; simpl in H.
  - destruct (match_here (atoms re) [] "") as [r |] eqn:Hm; [| discriminate].
    injection H as <-. exists "", "", r. auto.
  - destruct (match_here (atoms re) [] (String c s)) as [r |] eqn:Hm.
    + injection H as <-. exists "", (String c s), r. auto.
    + apply IH in H as (pre & s0 & r & -> & Hr & ->).
      exists (String c pre), s0, r. auto.
Qed.

(** The caller metadata is never made up: either it is the sentinel pair,
    the inspected line holding no match of the pattern, or the line contains
    [at g1 (g2:g3:g4)], the class name is g1 and the line number is the
    number g3 spells. *)
Theorem caller_metadata_from_frame :
  forall (stack_text : string) (w : World),
    (str_match caller_pattern (caller_line stack_text) = None
     /\ caller_metadata stack_text w = (Normal (VStr "UnknownClass", VNum 0), w))
    \/ exists pre g1 g2 g3 g4 post n,
         caller_line stack_text = frame pre g1 g2 g3 g4 post
         /\ caller_metadata stack_text w = (Normal (VStr g1, VNum n), w)
         /\ parseInt (VStr g3) = VNum n /\ (0 <= n)%Z
         /\ (g1 <> "" /\ all_chars dot g1 = true)
         /\ (g2 <> "" /\ all_chars dot g2 = true)
         /\ (g3 <> "" /\ all_chars digit g3 = true)
         /\ (g4 <> "" /\ all_chars digit g4 = true).
Proof.
  intros stack_text w. rewrite caller_metadata_cases.
  destruct (str_match caller_pattern (caller_line stack_text)) as [arr |] eqn:Hm;
    [right | left; split; reflexivity].
  apply str_match_position in Hm as (pre & s0 & [caps rest] & Hline & Hhere & ->).
  apply caller_pattern_text in Hhere
    as (g1 & g2 & g3 & g4 & -> & -> & H1 & H2 & H3 & H4).
  destruct (parseInt_digits g3 (proj1 H3) (proj2 H3)) as (n & Hn & Hpos).
  exists pre, g1, g2, g3, g4, rest, n.
  split; [exact Hline |]. cbn. rewrite Hn. repeat split; tauto.
Qed.

Lemma no_pair_tail a p c s : no_pair a p (String c s) = true -> no_pair a p s = true.
Proof.
  cbn [no_pair]. destruct s as [| d s']; [reflexivity |].
  intros H. apply andb_prop in H as [_ H]. exact H.
Qed.

Lemma no_pair_suffix a p pre : forall s,
  no_pair a p (pre ++ s) = true -> no_pair a p s = true.
Proof.
  induction pre as [| c pre IH]; intros s H; [exact H |].
  apply IH. apply (no_pair_tail a p c). exact H.
Qed.

Lemma no_pair_head a p d s :
  no_pair a p (String a (String d s)) = true -> p d = false.
Proof.
  cbn [no_pair]. rewrite Ascii.eqb_refl. cbn [andb].
  intros H. apply andb_prop in H as [H _]. now destruct (p d).
Qed.

Section WellFormedFrame.
Variables name file line col rest : string.
Hypothesis name_text : name <> "" /\ all_chars dot name = true.
Hypothesis name_plain : no_pair " " (Ascii.eqb "(") name = true.
Hypothesis file_text : file <> "" /\ all_chars dot file = true.
Hypothesis file_plain : no_pair ":" digit file = true.
Hypothesis line_digits : line <> "" /\ all_chars digit line = true.
Hypothesis col_digits : col <> "" /\ all_chars digit col = true.

Lemma frame_tail_matches caps :
  match_here [Lit ":"; Plus true digit (Some 3%nat); Lit ":"; Plus true digit None; Lit ")"]
    caps (":" ++ line ++ ":" ++ col ++ ")" ++ rest)
  = Some ((3%nat, line) :: caps, rest).
Proof.
  cbn [append match_here]. rewrite Ascii.eqb_refl.
  apply greedy_plus_whole; try tauto; try reflexivity.
  rewrite Ascii.eqb_refl.
  apply greedy_plus_whole; try tauto; reflexivity.
Qed.

Lemma frame_file_matches caps :
  match_here
    [Lit " "; Lit "("; Plus false dot (Some 2%nat); Lit ":";
     Plus true digit (Some 3%nat); Lit ":"; Plus true digit None; Lit ")"]
    caps (" (" ++ file ++ ":" ++ line ++ ":" ++ col ++ ")" ++ rest)
  = Some ([(3%nat, line); (2%nat, file)] ++ caps, rest)%list.
Proof.
  cbn [append match_here]. rewrite !Ascii.eqb_refl.
  apply lazy_plus_first; try tauto.
  - cbn [append record_group]. apply frame_tail_matches.
  - intros p q Heq Hp Hq. cbn [record_group append].
    destruct q as [| c q']; [congruence |].
    cbn [append match_here].
    destruct (Ascii.eqb_spec ":" c) as [<- | _]; [| reflexivity].
    destruct q' as [| d q''].
    + reflexivity.
    + assert (Hd : digit d = false).
      { apply (no_pair_head ":" digit d q''), (no_pair_suffix ":" digit p).
        rewrite <- Heq. exact file_plain. }
      cbn [append greedy_plus]. rewrite Hd. reflexivity.
Qed.

Lemma frame_matches :
  match_here (atoms caller_pattern) []
    ("at " ++ name ++ " (" ++ file ++ ":" ++ line ++ ":" ++ col ++ ")" ++ rest)
  = Some ([(3%nat, line); (2%nat, file); (1%nat, name)], rest).
Proof.
  cbn [atoms caller_pattern append match_here]. rewrite !Ascii.eqb_refl.
  apply lazy_plus_first; try tauto.
  - cbn [append record_group]. apply (frame_file_matches [(1%nat, name)]).
  - intros p q Heq Hp Hq. cbn [record_group append].
    destruct q as [| c q']; [congruence |].
    cbn [append match_here].
    destruct (Ascii.eqb_spec " " c) as [<- | _]; [| reflexivity].
    destruct q' as [| d q''].
    + reflexivity.
    + assert (Hd : Ascii.eqb "(" d = false).
      { apply (no_pair_head " " (Ascii.eqb "(") d q''),
          (no_pair_suffix " " (Ascii.eqb "(") p).
        rewrite <- Heq. exact name_plain. }
      cbn [append]. rewrite Hd. reflexivity.
Qed.

Lemma frame_found indent :
  all_chars (fun c => negb (Ascii.eqb "a" c)) indent = true ->
  exists whole,
    str_match caller_pattern (frame indent name file line col rest)
    = Some [VStr whole; VStr name; VStr file; VStr line].
Proof.
  pose proof frame_matches as Hhere.
  unfold frame. cbn [append] in Hhere |- *.
  induction indent as [| c indent IH]; intros Hind.
  - cbn [append str_match]. rewrite Hhere. eexists. reflexivity.
  - cbn [all_chars] in Hind. apply andb_prop in Hind as [Hc Hind].
    destruct (IH Hind) as [whole Hw]. exists whole.
    cbn [append str_match]. cbn [atoms caller_pattern match_here].
    destruct (Ascii.eqb "a" c); [discriminate Hc |]. exact Hw.
Qed.
End WellFormedFrame.

(** On a frame of the form V8 prints for a named call site,
    [<indent>at NAME (FILE:LINE:COLUMN)], the class name is NAME and the
    line number is LINE.  It is enough that the indentation holds no "a",
    that NAME and FILE hold no line break, that no space of NAME is followed
    by "(" and no colon of FILE by a digit. *)
Theorem caller_metadata_of_frame :
  forall (stack_text indent name file col rest : string) (n : Z) (w : World),
    caller_line stack_text = frame indent name file (Z_to_string n) col rest ->
    all_chars (fun c => negb (Ascii.eqb "a" c)) indent = true ->
    name <> "" -> all_chars dot name = true ->
    no_pair " " (Ascii.eqb "(") name = true ->
    file <> "" -> all_chars dot file = true ->
    no_pair ":" digit file = true ->
    (0 <= n)%Z ->
    col <> "" -> all_chars digit col = true ->
    caller_metadata stack_text w = (Normal (VStr name, VNum n), w).
Proof.
  intros stack_text indent name file col rest n w Hline Hind Hn1 Hn2 Hn3
         Hf1 Hf2 Hf3 Hpos Hc1 Hc2.
  destruct (parseInt_Z_to_string n Hpos) as (Hl1 & Hl2 & Hparse).
  destruct (frame_found name file (Z_to_string n) col rest
              (conj Hn1 Hn2) Hn3 (conj Hf1 Hf2) Hf3 (conj Hl1 Hl2) (conj Hc1 Hc2)
              indent Hind) as [whole Hm].
  rewrite caller_metadata_cases, Hline, Hm.
  cbn [nth]. rewrite Hparse. reflexivity.
Qed.

Lemma caller_metadata_of_frame_witness :
  caller_metadata sample_stack empty_world
  = (Normal (VStr "Object.<anonymous>", VNum 42), empty_world).
Proof.
  apply (caller_metadata_of_frame sample_stack "    " "Object.<anonymous>"
           "/app/server.js" "8" "" 42 empty_world);
    try reflexivity; try discriminate; lia.
Defined.

(* ===================================================================== *)
(** ** Which line is inspected, and calls in sequence *)
(* ===================================================================== *)

Lemma split_single l :
  all_chars (fun c => negb (Ascii.eqb c newline)) l = true ->
  split newline l = [l].
Proof.
  induction l as [| c l IH]; intros H; [reflexivity |].
  cbn [all_chars] in H. apply andb_prop in H as [Hc Hl].
  cbn [split]. destruct (Ascii.eqb c newline); [discriminate Hc |].
  rewrite (IH Hl). reflexivity.
Qed.

Lemma split_first_line l s :
  all_chars (fun c => negb (Ascii.eqb c newline)) l = true ->
  split newline (l ++ String newline s) = l :: split newline s.
Proof.
  induction l as [| c l IH]; intros H.
  - cbn [append split]. rewrite Ascii.eqb_refl. reflexivity.
  - cbn [all_chars] in H. apply andb_prop in H as [Hc Hl].
    cbn [append split]. destruct (Ascii.eqb c newline); [discriminate Hc |].
    rewrite (IH Hl). reflexivity.
Qed.

Lemma split_lines_cons l ls :
  all_chars (fun c => negb (Ascii.eqb c newline)) l = true ->
  exists tl, split newline (lines (l :: ls)) = l :: tl
             /\ (ls <> [] -> tl = split newline (lines ls)).
Proof.
  intros H. destruct ls as [| l' ls'].
  - exists []. split; [apply split_single, H | congruence].
  - exists (split newline (lines (l' :: ls'))). split; [| reflexivity].
    change (lines (l :: l' :: ls')) with (l ++ String newline (lines (l' :: ls'))).
    apply split_first_line, H.
Qed.

(** The line [log] inspects is the fourth line of the stack text: after the
    header line and the frames of [log] and of the severity method, that is
    the frame of the method's caller. *)
Theorem caller_line_is_fourth :
  forall (l0 l1 l2 l3 : string) (more : list string),
    Forall (fun l => all_chars (fun c => negb (Ascii.eqb c newline)) l = true)
      [l0; l1; l2; l3] ->
    caller_line (lines (l0 :: l1 :: l2 :: l3 :: more)) = l3.
Proof.
  intros l0 l1 l2 l3 more H.
  inversion H as [| ? ? H0 H']; subst. inversion H' as [| ? ? H1 H'']; subst.
  inversion H'' as [| ? ? H2 H''']; subst. inversion H''' as [| ? ? H3 _]; subst.
  unfold caller_line.
  destruct (split_lines_cons l0 (l1 :: l2 :: l3 :: more) H0) as (t0 & -> & E0).
  rewrite E0 by discriminate.
  destruct (split_lines_cons l1 (l2 :: l3 :: more) H1) as (t1 & -> & E1).
  rewrite E1 by discriminate.
  destruct (split_lines_cons l2 (l3 :: more) H2) as (t2 & -> & E2).
  rewrite E2 by discriminate.
  destruct (split_lines_cons l3 more H3) as (t3 & -> & _).
  reflexivity.
Qed.

Lemma caller_line_is_fourth_witness :
  caller_line sample_stack = "    at Object.<anonymous> (/app/server.js:42:8)".
Proof.
  apply (caller_line_is_fourth "Error"
           "    at LogArcService.log (/app/node_modules/logarc/src/index.js:131:19)"
           "    at LogArcService.info (/app/node_modules/logarc/src/index.js:81:10)"
           "    at Object.<anonymous> (/app/server.js:42:8)"
           ["    at Module._compile (node:internal/modules/cjs/loader:1105:14)"]).
  repeat constructor.
Defined.

(** Two calls one after the other issue two requests, in the order of the
    calls, each with the level of its method: the service keeps nothing
    from one call to the next. *)
Theorem two_calls_two_requests :
  forall name1 m1 name2 m2,
    In (name1, m1) severity_methods ->
    In (name2, m2) severity_methods ->
    forall rt1 rt2 this message1 data1 message2 data2 w t1 t2,
      tz rt1 (now rt1) (timezone this) = Normal t1 ->
      tz rt2 (now rt2) (timezone this) = Normal t2 ->
      exists props1 props2 w1 w2,
        m1 rt1 this message1 data1 w = (Normal (RetValue VUndefined), w1)
        /\ m2 rt2 this message2 data2 w1 = (Normal (RetValue VUndefined), w2)
        /\ requests w2 =
           (requests w ++ [log_request this (VObj props1);
                           log_request this (VObj props2)])%list
        /\ obj_get props1 "level" = VStr name1
        /\ obj_get props2 "level" = VStr name2
        /\ obj_get props1 "message" = default_param message1 VNull
        /\ obj_get props2 "message" = default_param message2 VNull.
Proof.
  intros name1 m1 name2 m2 H1 H2 rt1 rt2 this message1 data1 message2 data2 w t1 t2
         Ht1 Ht2.
  destruct (log_issues_request rt1 this (VStr name1) (default_param message1 VNull)
              (default_param data1 VNull) w t1 Ht1)
    as (c1 & l1 & _ & p1 & w1 & Hrun1 & Hreq1).
  rewrite !default_null_idem in Hreq1.
  pose (w1' := snd (drop_promise p1 w1)).
  destruct (log_issues_request rt2 this (VStr name2) (default_param message2 VNull)
              (default_param data2 VNull) w1' t2 Ht2)
    as (c2 & l2 & _ & p2 & w2 & Hrun2 & Hreq2).
  rewrite !default_null_idem in Hreq2.
  exists (log_props this (VStr name1) (default_param message1 VNull)
            (default_param data1 VNull) c1 l1 t1),
         (log_props this (VStr name2) (default_param message2 VNull)
            (default_param data2 VNull) c2 l2 t2),
         w1', (snd (drop_promise p2 w2)).
  split; [rewrite (severity_run _ _ H1), Hrun1; reflexivity |].
  split; [rewrite (severity_run _ _ H2), Hrun2; reflexivity |].
  split.
  - rewrite requests_drop_promise, Hreq2. unfold w1'.
    rewrite requests_drop_promise, Hreq1, <- app_assoc. reflexivity.
  - repeat split.
Qed.

Lemma two_calls_two_requests_witness :
  exists props1 props2 w1 w2,
    debug (server_with (Responded 200 (VStr "ok"))) sample_service (VStr "one") VNull
      empty_world = (Normal (RetValue VUndefined), w1)
    /\ emergency (server_with (Responded 500 (VStr "boom"))) sample_service
         (VStr "two") VNull w1 = (Normal (RetValue VUndefined), w2)
    /\ requests w2 = [log_request sample_service (VObj props1);
                      log_request sample_service (VObj props2)]
    /\ obj_get props1 "level" = VStr "debug"
    /\ obj_get props2 "level" = VStr "emergency".
Proof.
  destruct (two_calls_two_requests "debug" debug "emergency" emergency
              (or_introl eq_refl)
              (or_intror (or_intror (or_intror (or_intror (or_intror
                 (or_intror (or_intror (or_introl eq_refl))))))))
              (server_with (Responded 200 (VStr "ok")))
              (server_with (Responded 500 (VStr "boom")))
              sample_service (VStr "one") VNull (VStr "two") VNull empty_world
              (mkCivil 2024 3 9 7 5 3) (mkCivil 2024 3 9 7 5 3) eq_refl eq_refl)
    as (p1 & p2 & w1 & w2 & Ha & Hb & Hreq & Hl1 & Hl2 & _).
  exists p1, p2, w1, w2. repeat split; assumption.
Defined.
